(** * AttendX server: a shallow embedding of [server.js]

    The Express handlers of [server.js] are modelled as functions over an
    explicit store: the three tables created by [initDatabase], and the log of
    the statements sent through [pool.query].  Each handler runs in a small
    state-and-error monad; the [try { ... } catch] of every handler turns a
    thrown error into a 500 response whose body carries the error message.

    The store follows the schema declared in [initDatabase]: primary keys,
    NOT NULL columns, VARCHAR(n) lengths and the foreign key
    [attendance.employee_id REFERENCES employees(id) ON DELETE CASCADE].

    Modelling choices:
    - a request body is a JSON object of scalar values (no nested objects or
      arrays); numbers are integers, printed in decimal as JavaScript prints
      safe integers;
    - characters are Rocq [ascii] values; VARCHAR(n) lengths count them;
    - SELECT without ORDER BY returns rows in insertion order. *)

From Stdlib Require Import ZArith List Bool Ascii String Lia Permutation.
Import ListNotations.
Open Scope string_scope.

(** ** JavaScript values *)

Inductive jsval :=
| JUndefined
| JNull
| JBool (b : bool)
| JNum (n : Z)
| JStr (s : string).

(** A parsed JSON request body.  A key given twice keeps its last value, as
    [JSON.parse] does; a missing key reads as [undefined]. *)
Definition obj := list (string * jsval).

Fixpoint field (o : obj) (k : string) : jsval :=
  match o with
  | [] => JUndefined
  | (k', v) :: o' =>
      match field o' k with
      | JUndefined => if String.eqb k k' then v else JUndefined
      | w => w
      end
  end.

(** Decimal printing of numbers ([String(n)] in JavaScript). *)
Fixpoint string_of_uint (d : Decimal.uint) : string :=
  match d with
  | Decimal.Nil => ""
  | Decimal.D0 d => String "0" (string_of_uint d)
  | Decimal.D1 d => String "1" (string_of_uint d)
  | Decimal.D2 d => String "2" (string_of_uint d)
  | Decimal.D3 d => String "3" (string_of_uint d)
  | Decimal.D4 d => String "4" (string_of_uint d)
  | Decimal.D5 d => String "5" (string_of_uint d)
  | Decimal.D6 d => String "6" (string_of_uint d)
  | Decimal.D7 d => String "7" (string_of_uint d)
  | Decimal.D8 d => String "8" (string_of_uint d)
  | Decimal.D9 d => String "9" (string_of_uint d)
  end.

Definition string_of_Z (z : Z) : string :=
  match Z.to_int z with
  | Decimal.Pos d => string_of_uint d
  | Decimal.Neg d => "-" ++ string_of_uint d
  end.

Definition string_of_nat (n : nat) : string := string_of_uint (Nat.to_uint n).

(** [String(v)], used by template literals. *)
Definition js_string (v : jsval) : string :=
  match v with
  | JUndefined => "undefined"
  | JNull => "null"
  | JBool true => "true"
  | JBool false => "false"
  | JNum n => string_of_Z n
  | JStr s => s
  end.

(** JavaScript truthiness, for [x || ''] *)
Definition truthy (v : jsval) : bool :=
  match v with
  | JUndefined | JNull => false
  | JBool b => b
  | JNum n => negb (Z.eqb n 0)
  | JStr s => negb (String.eqb s "")
  end.

Definition js_or (a b : jsval) : jsval := if truthy a then a else b.

(** ** Store values *)

(** A column value: [None] is SQL NULL. *)
Definition cell := option string.

(** How node-postgres sends a query parameter: [undefined] and [null] become
    NULL, scalars are sent as their [toString()]. *)
Definition to_param (v : jsval) : cell :=
  match v with
  | JUndefined | JNull => None
  | _ => Some (js_string v)
  end.

(** SQL [col = $k] in a WHERE clause: NULL on either side never matches. *)
Definition sql_eq (a b : cell) : bool :=
  match a, b with
  | Some x, Some y => String.eqb x y
  | _, _ => false
  end.

Record employee := mkEmployee {
  e_id : string;
  e_name : string;
  e_email : cell;
  e_phone : cell;
  e_address : cell;
  e_department : cell;
  e_outlet : cell }.

Record department := mkDepartment {
  d_id : string;
  d_name : string;
  d_description : cell;
  d_outlet : cell }.

Record attendance := mkAttendance {
  a_id : string;
  a_employee_id : cell;
  a_date : string;
  a_status : string;
  a_outlet : cell }.

(** A statement as sent to [pool.query]: its text and its parameters. *)
Definition stmt := (string * list cell)%type.

Record db := mkDb {
  employees : list employee;
  departments : list department;
  attendances : list attendance;
  log : list stmt }.

Definition set_employees (l : list employee) (s : db) : db :=
  mkDb l (departments s) (attendances s) (log s).
Definition set_departments (l : list department) (s : db) : db :=
  mkDb (employees s) l (attendances s) (log s).
Definition set_attendances (l : list attendance) (s : db) : db :=
  mkDb (employees s) (departments s) l (log s).
Definition add_log (q : stmt) (s : db) : db :=
  mkDb (employees s) (departments s) (attendances s) (log s ++ [q]).

Definition init_db : db := mkDb [] [] [] [].

(** Errors thrown inside a handler: the store's, and the [TypeError] of
    reading a field of [rows[0]] when the result has no row. *)
Inductive exn :=
| InvalidByteSequence
| ValueTooLong (n : nat)
| NotNullViolation (column : string)
| UniqueViolation (constraint : string)
| ForeignKeyViolation (constraint : string)
| TypeError.

(** ** The handler monad: state passing with errors *)

Definition M (A : Type) := db -> (A + exn) * db.

Definition ret {A} (a : A) : M A := fun s => (inl a, s).
Definition raise {A} (e : exn) : M A := fun s => (inr e, s).
Definition bind {A B} (m : M A) (k : A -> M B) : M B :=
  fun s => match m s with
           | (inl a, s') => k a s'
           | (inr e, s') => (inr e, s')
           end.
Definition get : M db := fun s => (inl s, s).
Definition modify (f : db -> db) : M unit := fun s => (inl tt, f s).

Notation "x <- m ;; k" := (bind m (fun x => k))
  (at level 61, m at next level, right associativity).
Notation "m ;;; k" := (bind m (fun _ => k)) (at level 61, right associativity).

(** ** Statements against the store *)

Fixpoint has_nul (s : string) : bool :=
  match s with
  | EmptyString => false
  | String c s' => Ascii.eqb c (ascii_of_nat 0) || has_nul s'
  end.

Fixpoint all_spaces (s : string) : bool :=
  match s with
  | EmptyString => true
  | String c s' => Ascii.eqb c " "%char && all_spaces s'
  end.

(** [pool.query(text, values)]: the statement reaches the store, which
    refuses a text parameter holding the byte 0x00. *)
Definition issue (q : string) (ps : list cell) : M unit :=
  modify (add_log (q, ps)) ;;;
  if existsb (fun c => match c with Some s => has_nul s | None => false end) ps
  then raise InvalidByteSequence else ret tt.

Inductive coltype := VarChar (n : nat) | Text.

(** Assignment of a parameter to a column: a VARCHAR(n) value longer than
    [n] is an error unless the excess characters are all spaces, in which
    case it is truncated to [n] characters. *)
Definition coerce (t : coltype) (c : cell) : M cell :=
  match t, c with
  | _, None | Text, _ => ret c
  | VarChar n, Some s =>
      if Nat.leb (String.length s) n then ret (Some s)
      else if all_spaces (substring n (String.length s - n) s) then ret (Some (substring 0 n s))
      else raise (ValueTooLong n)
  end.

Definition not_null (column : string) (c : cell) : M string :=
  match c with
  | Some s => ret s
  | None => raise (NotNullViolation column)
  end.

Definition sql_select_employees : M (list employee) :=
  issue "SELECT * FROM employees" [] ;;;
  s <- get ;; ret (employees s).

Definition sql_insert_employee (id name email phone address department outlet : cell)
  : M (list employee) :=
  issue "INSERT INTO employees (id, name, email, phone, address, department, outlet) VALUES ($1, $2, $3, $4, $5, $6, $7) RETURNING *"
    [id; name; email; phone; address; department; outlet] ;;;
  id <- coerce (VarChar 255) id ;;
  name <- coerce (VarChar 255) name ;;
  email <- coerce (VarChar 255) email ;;
  phone <- coerce (VarChar 255) phone ;;
  address <- coerce Text address ;;
  department <- coerce (VarChar 255) department ;;
  outlet <- coerce (VarChar 255) outlet ;;
  i <- not_null "id" id ;;
  n <- not_null "name" name ;;
  s <- get ;;
  if existsb (fun e => String.eqb (e_id e) i) (employees s)
  then raise (UniqueViolation "employees_pkey")
  else
    let r := mkEmployee i n email phone address department outlet in
    modify (set_employees (employees s ++ [r])) ;;; ret [r].

Definition employee_coltype (column : string) : coltype :=
  if String.eqb column "address" then Text else VarChar 255.

(** [SET column = value] on one employee row ([None]: NOT NULL violated). *)
Definition set_employee_column (e : employee) (column : string) (v : cell)
  : option employee :=
  let '(mkEmployee i n em ph ad de ou) := e in
  if String.eqb column "name" then
    match v with Some n' => Some (mkEmployee i n' em ph ad de ou) | None => None end
  else if String.eqb column "email" then Some (mkEmployee i n v ph ad de ou)
  else if String.eqb column "phone" then Some (mkEmployee i n em v ad de ou)
  else if String.eqb column "address" then Some (mkEmployee i n em ph v de ou)
  else if String.eqb column "department" then Some (mkEmployee i n em ph ad v ou)
  else if String.eqb column "outlet" then Some (mkEmployee i n em ph ad de v)
  else Some e.

Fixpoint set_employee_columns (e : employee) (sets : list (string * cell))
  : option employee :=
  match sets with
  | [] => Some e
  | (c, v) :: sets' =>
      match set_employee_column e c v with
      | Some e' => set_employee_columns e' sets'
      | None => None
      end
  end.

Fixpoint coerce_sets (sets : list (string * cell)) : M (list (string * cell)) :=
  match sets with
  | [] => ret []
  | (c, v) :: sets' =>
      v' <- coerce (employee_coltype c) v ;;
      rest <- coerce_sets sets' ;; ret ((c, v') :: rest)
  end.

Fixpoint update_rows (sets : list (string * cell)) (id : cell) (l : list employee)
  : M (list employee) :=
  match l with
  | [] => ret []
  | e :: l' =>
      rest <- update_rows sets id l' ;;
      if sql_eq (Some (e_id e)) id then
        match set_employee_columns e sets with
        | Some e' => ret (e' :: rest)
        | None => raise (NotNullViolation "name")
        end
      else ret (e :: rest)
  end.

(** The dynamically built [UPDATE employees SET ... WHERE id = $k RETURNING *]. *)
Definition sql_update_employee (q : string) (sets : list (string * cell)) (id : cell)
  : M (list employee) :=
  issue q (map snd sets ++ [id]) ;;;
  sets <- coerce_sets sets ;;
  s <- get ;;
  l <- update_rows sets id (employees s) ;;
  modify (set_employees l) ;;;
  ret (filter (fun e => sql_eq (Some (e_id e)) id) l).

Definition sql_delete_attendance_of (id : cell) : M unit :=
  issue "DELETE FROM attendance WHERE employee_id = $1" [id] ;;;
  s <- get ;;
  modify (set_attendances
            (filter (fun a => negb (sql_eq (a_employee_id a) id)) (attendances s))).

(** Deleting employees also deletes, through [ON DELETE CASCADE], the
    attendance rows that reference them. *)
Definition sql_delete_employee (id : cell) : M (list employee) :=
  issue "DELETE FROM employees WHERE id = $1 RETURNING *" [id] ;;;
  s <- get ;;
  let hit e := sql_eq (Some (e_id e)) id in
  let gone := filter hit (employees s) in
  modify (set_employees (filter (fun e => negb (hit e)) (employees s))) ;;;
  s <- get ;;
  modify (set_attendances
            (filter (fun a => negb (existsb (fun e => sql_eq (a_employee_id a) (Some (e_id e))) gone))
                    (attendances s))) ;;;
  ret gone.

Definition sql_select_departments : M (list department) :=
  issue "SELECT * FROM departments" [] ;;;
  s <- get ;; ret (departments s).

Definition sql_insert_department (id name description outlet : cell) : M (list department) :=
  issue "INSERT INTO departments (id, name, description, outlet) VALUES ($1, $2, $3, $4) RETURNING *"
    [id; name; description; outlet] ;;;
  id <- coerce (VarChar 255) id ;;
  name <- coerce (VarChar 255) name ;;
  description <- coerce Text description ;;
  outlet <- coerce (VarChar 255) outlet ;;
  i <- not_null "id" id ;;
  n <- not_null "name" name ;;
  s <- get ;;
  if existsb (fun d => String.eqb (d_id d) i) (departments s)
  then raise (UniqueViolation "departments_pkey")
  else
    let r := mkDepartment i n description outlet in
    modify (set_departments (departments s ++ [r])) ;;; ret [r].

Definition sql_delete_department (id : cell) : M (list department) :=
  issue "DELETE FROM departments WHERE id = $1 RETURNING *" [id] ;;;
  s <- get ;;
  let hit d := sql_eq (Some (d_id d)) id in
  modify (set_departments (filter (fun d => negb (hit d)) (departments s))) ;;;
  ret (filter hit (departments s)).

Definition sql_select_attendance : M (list attendance) :=
  issue "SELECT * FROM attendance" [] ;;;
  s <- get ;; ret (attendances s).

Definition sql_select_outlet (id : cell) : M (list cell) :=
  issue "SELECT outlet FROM employees WHERE id = $1" [id] ;;;
  s <- get ;;
  ret (map e_outlet (filter (fun e => sql_eq (Some (e_id e)) id) (employees s))).

(** [employee_id = $1 AND date = $2] *)
Definition att_match (employeeId date : cell) (a : attendance) : bool :=
  sql_eq (a_employee_id a) employeeId && sql_eq (Some (a_date a)) date.

Definition sql_select_attendance_of (employeeId date : cell) : M (list attendance) :=
  issue "SELECT * FROM attendance WHERE employee_id = $1 AND date = $2" [employeeId; date] ;;;
  s <- get ;;
  ret (filter (att_match employeeId date) (attendances s)).

Definition set_status (v : string) (a : attendance) : attendance :=
  mkAttendance (a_id a) (a_employee_id a) (a_date a) v (a_outlet a).

Definition sql_update_status (status employeeId date : cell) : M (list attendance) :=
  issue "UPDATE attendance SET status = $1 WHERE employee_id = $2 AND date = $3 RETURNING *"
    [status; employeeId; date] ;;;
  status <- coerce (VarChar 50) status ;;
  s <- get ;;
  if existsb (att_match employeeId date) (attendances s) then
    v <- not_null "status" status ;;
    let l := map (fun a => if att_match employeeId date a then set_status v a else a)
                 (attendances s) in
    modify (set_attendances l) ;;;
    ret (filter (att_match employeeId date) l)
  else ret [].

Definition sql_insert_attendance (id employeeId date status outlet : cell)
  : M (list attendance) :=
  issue "INSERT INTO attendance (id, employee_id, date, status, outlet) VALUES ($1, $2, $3, $4, $5) RETURNING *"
    [id; employeeId; date; status; outlet] ;;;
  id <- coerce (VarChar 255) id ;;
  employeeId <- coerce (VarChar 255) employeeId ;;
  date <- coerce (VarChar 255) date ;;
  status <- coerce (VarChar 50) status ;;
  outlet <- coerce (VarChar 255) outlet ;;
  i <- not_null "id" id ;;
  d <- not_null "date" date ;;
  st <- not_null "status" status ;;
  s <- get ;;
  if existsb (fun a => String.eqb (a_id a) i) (attendances s)
  then raise (UniqueViolation "attendance_pkey")
  else if match employeeId with
          | Some e => negb (existsb (fun x => String.eqb (e_id x) e) (employees s))
          | None => false
          end
  then raise (ForeignKeyViolation "attendance_employee_id_fkey")
  else
    let r := mkAttendance i employeeId d st outlet in
    modify (set_attendances (attendances s ++ [r])) ;;; ret [r].

Definition sql_delete_attendance (employeeId date : cell) : M (list attendance) :=
  issue "DELETE FROM attendance WHERE employee_id = $1 AND date = $2 RETURNING *"
    [employeeId; date] ;;;
  s <- get ;;
  modify (set_attendances (filter (fun a => negb (att_match employeeId date a)) (attendances s))) ;;;
  ret (filter (att_match employeeId date) (attendances s)).

(** ** Responses and handlers *)

(** JSON response bodies.  Attendance rows are sent with [employee_id]
    renamed to [employeeId]; the fields are otherwise the row's. *)
Inductive body :=
| BError (msg : string)          (* { error: msg } written by the handler *)
| BException (e : exn)           (* { error: error.message } from the catch *)
| BEmployees (l : list employee)
| BEmployee (e : employee)
| BDepartments (l : list department)
| BDepartment (d : department)
| BAttendances (l : list attendance)
| BAttendance (a : attendance)
| BSuccess                       (* { success: true } *)
| BUndefined.                    (* res.json(undefined) *)

Record response := mkResponse { status : Z; body_of : body }.

(** Process configuration: whether [DATABASE_URL] gave a pool, and the
    clock read by [Date.now()]. *)
Record env := mkEnv { pool : bool; now : Z }.

Definition unavailable : response := mkResponse 503 (BError "Database not available").

(** [try { ... } catch (error) { res.status(500).json({ error: error.message }) }] *)
Definition run (h : M response) (s : db) : response * db :=
  match h s with
  | (inl r, s') => (r, s')
  | (inr e, s') => (mkResponse 500 (BException e), s')
  end.

Definition get_employees (en : env) : M response :=
  if negb (pool en) then ret unavailable else
  rows <- sql_select_employees ;;
  ret (mkResponse 200 (BEmployees rows)).

Definition post_employees (en : env) (b : obj) : M response :=
  if negb (pool en) then ret unavailable else
  let name := field b "name" in
  let email := field b "email" in
  let phone := field b "phone" in
  let address := field b "address" in
  let department := field b "department" in
  let outlet := field b "outlet" in
  let id := "emp-" ++ string_of_Z (now en) in
  rows <- sql_insert_employee (Some id) (to_param name) (to_param (js_or email (JStr "")))
            (to_param phone) (to_param (js_or address (JStr "")))
            (to_param (js_or department (JStr ""))) (to_param outlet) ;;
  ret (mkResponse 201 (match rows with r :: _ => BEmployee r | [] => BUndefined end)).

Definition is_undefined (v : jsval) : bool :=
  match v with JUndefined => true | _ => false end.

(** The six [if (x !== undefined) { updateFields.push(`x = $${paramIndex++}`);
    values.push(x); }] blocks: the SET items, the (column, value) pairs and
    the final [paramIndex]. *)
Fixpoint build_update (cols : list string) (b : obj) (paramIndex : nat)
  : list string * list (string * jsval) * nat :=
  match cols with
  | [] => ([], [], paramIndex)
  | c :: cols' =>
      let v := field b c in
      if is_undefined v then build_update cols' b paramIndex
      else
        let '(fs, vs, k) := build_update cols' b (S paramIndex) in
        ((c ++ " = $" ++ string_of_nat paramIndex) :: fs, (c, v) :: vs, k)
  end.

Definition patch_columns : list string :=
  ["name"; "email"; "phone"; "address"; "department"; "outlet"].

Fixpoint join (sep : string) (l : list string) : string :=
  match l with
  | [] => ""
  | [x] => x
  | x :: l' => x ++ sep ++ join sep l'
  end.

Definition patch_employee (en : env) (id : string) (b : obj) : M response :=
  if negb (pool en) then ret unavailable else
  let '(updateFields, values, paramIndex) := build_update patch_columns b 1 in
  if Nat.eqb (List.length updateFields) 0 then
    ret (mkResponse 400 (BError "No fields to update"))
  else
    let query := "UPDATE employees SET " ++ join ", " updateFields
                 ++ " WHERE id = $" ++ string_of_nat paramIndex ++ " RETURNING *" in
    rows <- sql_update_employee query (map (fun cv => (fst cv, to_param (snd cv))) values)
              (Some id) ;;
    match rows with
    | [] => ret (mkResponse 404 (BError "Employee not found"))
    | r :: _ => ret (mkResponse 200 (BEmployee r))
    end.

Definition delete_employee (en : env) (id : string) : M response :=
  if negb (pool en) then ret unavailable else
  sql_delete_attendance_of (Some id) ;;;
  rows <- sql_delete_employee (Some id) ;;
  match rows with
  | [] => ret (mkResponse 404 (BError "Employee not found"))
  | _ => ret (mkResponse 200 BSuccess)
  end.

Definition get_departments (en : env) : M response :=
  if negb (pool en) then ret unavailable else
  rows <- sql_select_departments ;;
  ret (mkResponse 200 (BDepartments rows)).

Definition post_departments (en : env) (b : obj) : M response :=
  if negb (pool en) then ret unavailable else
  let name := field b "name" in
  let description := field b "description" in
  let outlet := field b "outlet" in
  let id := "dept-" ++ string_of_Z (now en) in
  rows <- sql_insert_department (Some id) (to_param name)
            (to_param (js_or description (JStr ""))) (to_param outlet) ;;
  ret (mkResponse 201 (match rows with r :: _ => BDepartment r | [] => BUndefined end)).

Definition delete_department (en : env) (id : string) : M response :=
  if negb (pool en) then ret unavailable else
  rows <- sql_delete_department (Some id) ;;
  match rows with
  | [] => ret (mkResponse 404 (BError "Department not found"))
  | _ => ret (mkResponse 200 BSuccess)
  end.

Definition get_attendance (en : env) : M response :=
  if negb (pool en) then ret unavailable else
  rows <- sql_select_attendance ;;
  ret (mkResponse 200 (BAttendances rows)).

(** [`${employeeId}-${date}`] *)
Definition attendance_id (employeeId date : jsval) : string :=
  js_string employeeId ++ "-" ++ js_string date.

Definition post_attendance (en : env) (b : obj) : M response :=
  if negb (pool en) then ret unavailable else
  let employeeId := field b "employeeId" in
  let date := field b "date" in
  let status := field b "status" in
  let id := attendance_id employeeId date in
  employeeResult <- sql_select_outlet (to_param employeeId) ;;
  let outlet := match employeeResult with o :: _ => o | [] => None end in
  existingRecord <- sql_select_attendance_of (to_param employeeId) (to_param date) ;;
  let exists_ := Nat.ltb 0 (List.length existingRecord) in
  result <- (if exists_
             then sql_update_status (to_param status) (to_param employeeId) (to_param date)
             else sql_insert_attendance (Some id) (to_param employeeId) (to_param date)
                    (to_param status) outlet) ;;
  match result with
  | [] => raise TypeError
  | r :: _ => ret (mkResponse (if exists_ then 200 else 201) (BAttendance r))
  end.

Definition delete_attendance (en : env) (employeeId date : string) : M response :=
  if negb (pool en) then ret unavailable else
  rows <- sql_delete_attendance (Some employeeId) (Some date) ;;
  match rows with
  | [] => ret (mkResponse 404 (BError "Attendance record not found"))
  | _ => ret (mkResponse 200 BSuccess)
  end.

(** ** Routing *)

Inductive request :=
| GetEmployees
| PostEmployees (b : obj)
| PatchEmployee (id : string) (b : obj)
| DeleteEmployee (id : string)
| GetDepartments
| PostDepartments (b : obj)
| DeleteDepartment (id : string)
| GetAttendance
| PostAttendance (b : obj)
| DeleteAttendance (employeeId date : string).

Definition handler (en : env) (r : request) : M response :=
  match r with
  | GetEmployees => get_employees en
  | PostEmployees b => post_employees en b
  | PatchEmployee id b => patch_employee en id b
  | DeleteEmployee id => delete_employee en id
  | GetDepartments => get_departments en
  | PostDepartments b => post_departments en b
  | DeleteDepartment id => delete_department en id
  | GetAttendance => get_attendance en
  | PostAttendance b => post_attendance en b
  | DeleteAttendance e d => delete_attendance en e d
  end.

Definition serve (en : env) (r : request) (s : db) : response * db :=
  run (handler en r) s.

(** Store states reachable from the freshly initialised tables by a sequence
    of requests (each under its own clock reading). *)
Inductive reachable : db -> Prop :=
| reachable_init : reachable init_db
| reachable_step : forall en r s, reachable s -> reachable (snd (serve en r s)).

(** Projection of an attendance row on everything but its status. *)
Definition att_key (a : attendance) : string * cell * string * cell :=
  (a_id a, a_employee_id a, a_date a, a_outlet a).

(** A process with a pool, for concrete runs. *)
Definition ex_env : env := mkEnv true 1.

(** The store invariant of reachable states:

    - attendance ids are distinct (primary key);
    - a row with a non-NULL [employee_id] [e] has the id stored for
      [`${e}-${date}`]: the first 255 characters of [e ++ "-" ++ date];
    - every non-NULL [employee_id] names an employee (foreign key). *)
Record att_inv (s : db) : Prop := {
  inv_ids : NoDup (map a_id (attendances s));
  inv_key : forall a e, In a (attendances s) -> a_employee_id a = Some e ->
              a_id a = substring 0 255 (e ++ "-" ++ a_date a);
  inv_fk : forall a e, In a (attendances s) -> a_employee_id a = Some e ->
              exists x, In x (employees s) /\ e_id x = e }.

Definition pres {A} (m : M A) : Prop := forall s, att_inv s -> att_inv (snd (m s)).

Definition tables (s : db) := (employees s, departments s, attendances s).

Definition fails_keeping {A} (m : M A) (s : db) : Prop :=
  exists ex, fst (m s) = inr ex /\ tables (snd (m s)) = tables s.

(** A computation that leaves the attendance table alone. *)
Definition keeps_att {A} (m : M A) : Prop :=
  forall s, attendances (snd (m s)) = attendances s.

Definition ex_upsert (status : string) : request :=
  PostAttendance [("employeeId", JStr "emp-1"); ("date", JStr "2024-01-01");
                  ("status", JStr status)].

(** A store holding employee [emp-1] and its attendance for 2024-01-01. *)
Definition ex_store : db :=
  snd (serve ex_env (ex_upsert "present")
         (snd (serve ex_env (PostEmployees [("name", JStr "Ann"); ("outlet", JStr "North")])
                 init_db))).

(** Two upserts without an [employeeId] (absent, then [null]) for the same
    date: neither existence check matches a NULL [employee_id], the ids
    [undefined-2024-01-01] and [null-2024-01-01] differ, and both rows stay. *)
Definition null_pair_store : db :=
  snd (serve ex_env (PostAttendance [("employeeId", JNull); ("date", JStr "2024-01-01");
                                     ("status", JStr "present")])
         (snd (serve ex_env (PostAttendance [("date", JStr "2024-01-01");
                                             ("status", JStr "present")]) init_db))).

(** An upsert for the employee id [nope], which no employee row has. *)
Definition ex_unknown_upsert : request :=
  PostAttendance [("employeeId", JStr "nope"); ("date", JStr "2024-01-01");
                  ("status", JStr "present")].

(** An upsert without [employeeId]. *)
Definition ex_anonymous_upsert : request :=
  PostAttendance [("date", JStr "2024-01-01"); ("status", JStr "present")].

Definition ex_ann : obj := [("name", JStr "Ann")].

Definition ex_ann_row : employee :=
  mkEmployee "emp-1" "Ann" (Some "") None (Some "") (Some "") None.

(** Employee ids and department ids are distinct within their table. *)
Definition keys_inv (s : db) : Prop :=
  NoDup (map e_id (employees s)) /\ NoDup (map d_id (departments s)).

Definition kpres {A} (m : M A) : Prop := forall s, keys_inv s -> keys_inv (snd (m s)).

(** The value of the column [column] of an employee row, as [row[column]]. *)
Definition employee_column (e : employee) (column : string) : cell :=
  if String.eqb column "id" then Some (e_id e)
  else if String.eqb column "name" then Some (e_name e)
  else if String.eqb column "email" then e_email e
  else if String.eqb column "phone" then e_phone e
  else if String.eqb column "address" then e_address e
  else if String.eqb column "department" then e_department e
  else if String.eqb column "outlet" then e_outlet e
  else None.

(** The SET items [column = $i] numbered from [n], one per column. *)
Fixpoint placeholders (n : nat) (cols : list string) : list string :=
  match cols with
  | [] => []
  | c :: cols' => (c ++ " = $" ++ string_of_nat n) :: placeholders (S n) cols'
  end.

(** ** Basic facts about the embedding *)

Lemma sql_eq_refl (x : string) : sql_eq (Some x) (Some x) = true.
Proof. simpl. apply String.eqb_refl. Qed.

Lemma sql_eq_some (a : cell) (x : string) : sql_eq a (Some x) = true -> a = Some x.
Proof.
  destruct a as [y|]; simpl; [intros H; apply String.eqb_eq in H; subst; reflexivity|discriminate].
Qed.

Lemma snd_run (h : M response) (s : db) : snd (run h s) = snd (h s).
Proof. unfold run. destruct (h s) as [[r|e] s']; reflexivity. Qed.

(** Unfold the monad and the statements down to matches on the store. *)
Ltac unfold_m :=
  cbv beta iota zeta delta [bind ret raise get modify issue add_log set_employees
    set_departments set_attendances coerce not_null sql_select_employees
    sql_insert_employee sql_update_employee sql_delete_attendance_of sql_delete_employee
    sql_select_departments sql_insert_department sql_delete_department
    sql_select_attendance sql_select_outlet sql_select_attendance_of sql_update_status
    sql_insert_attendance sql_delete_attendance].

(** ** Prefixes of strings

    A VARCHAR(n) column stores, when the assignment succeeds, the first [n]
    characters of the value. *)

Lemma str_append_assoc (a b c : string) : (a ++ b) ++ c = a ++ (b ++ c).
Proof. induction a as [|ch a IH]; simpl; [reflexivity|now rewrite IH]. Qed.

Lemma prefix_prefix (m n : nat) (x : string) :
  m <= n -> substring 0 m (substring 0 n x) = substring 0 m x.
Proof.
  revert m n. induction x as [|ch x IH]; intros m n Hmn.
  - destruct n, m; reflexivity.
  - destruct m as [|m]; [destruct n; reflexivity|].
    destruct n as [|n]; [lia|]. simpl. rewrite IH by lia. reflexivity.
Qed.

Lemma prefix_append_l (n : nat) (a b : string) :
  substring 0 n (a ++ b) = substring 0 n (substring 0 n a ++ b).
Proof.
  revert n. induction a as [|ch a IH]; intros n.
  - destruct n; reflexivity.
  - destruct n as [|n]; [destruct b; reflexivity|]. simpl. rewrite IH. reflexivity.
Qed.

Lemma prefix_append_r (m n : nat) (a b : string) :
  m <= n -> substring 0 m (a ++ b) = substring 0 m (a ++ substring 0 n b).
Proof.
  revert m. induction a as [|ch a IH]; intros m Hmn.
  - simpl. symmetry. apply prefix_prefix. exact Hmn.
  - destruct m as [|m]; [reflexivity|]. simpl. rewrite (IH m) by lia. reflexivity.
Qed.

Lemma prefix_dash (n : nat) (x y : string) :
  substring 0 n (x ++ "-" ++ y) = substring 0 n (substring 0 n x ++ "-" ++ substring 0 n y).
Proof.
  rewrite prefix_append_l.
  rewrite <- str_append_assoc, (prefix_append_r n n) by lia.
  rewrite str_append_assoc. reflexivity.
Qed.

Lemma prefix_short (n : nat) (x : string) : String.length x <= n -> substring 0 n x = x.
Proof.
  revert n. induction x as [|ch x IH]; intros n H; [destruct n; reflexivity|].
  destruct n as [|n]; simpl in H; [lia|]. simpl. rewrite IH by lia. reflexivity.
Qed.

(** What [coerce] yields, when it succeeds, and that it leaves the store. *)
Lemma coerce_varchar (n : nat) (c : cell) (s : db) (c' : cell) (s' : db) :
  coerce (VarChar n) c s = (inl c', s') ->
  s' = s /\ c' = option_map (substring 0 n) c.
Proof.
  destruct c as [x|]; simpl.
  - destruct (Nat.leb (String.length x) n) eqn:E.
    + intros H; inversion H; subst. apply Nat.leb_le in E. rewrite prefix_short by exact E.
      split; reflexivity.
    + destruct (all_spaces (substring n (String.length x - n) x));
        intros H; inversion H; subst; split; reflexivity.
  - intros H; inversion H; subst; split; reflexivity.
Qed.

Lemma coerce_state (t : coltype) (c : cell) (s : db) : snd (coerce t c s) = s.
Proof.
  destruct t as [n|], c as [x|]; simpl; try reflexivity.
  destruct (Nat.leb (String.length x) n); [reflexivity|].
  destruct (all_spaces (substring n (String.length x - n) x)); reflexivity.
Qed.

(** ** Preservation of the store invariant *)

Lemma pres_bind {A B} (m : M A) (k : A -> M B) :
  pres m -> (forall a, pres (k a)) -> pres (bind m k).
Proof.
  intros Hm Hk s Hs. unfold bind. specialize (Hm s Hs).
  destruct (m s) as [[a|e] s'] eqn:E; simpl in *; [apply Hk|]; exact Hm.
Qed.

Lemma pres_ret {A} (a : A) : pres (ret a).
Proof. intros s Hs; exact Hs. Qed.

Lemma pres_raise {A} (e : exn) : pres (@raise A e).
Proof. intros s Hs; exact Hs. Qed.

Lemma pres_get_bind {B} (k : db -> M B) :
  (forall s, att_inv s -> att_inv (snd (k s s))) -> pres (bind get k).
Proof. intros H s Hs. exact (H s Hs). Qed.

Lemma att_inv_ext (s s' : db) :
  attendances s' = attendances s ->
  (forall x, In x (employees s) -> exists y, In y (employees s') /\ e_id y = e_id x) ->
  att_inv s -> att_inv s'.
Proof.
  intros Ha He [H1 H2 H3]. rewrite <- Ha in H1, H2, H3. split; [exact H1|exact H2|].
  intros a e Hin Hid. destruct (H3 a e Hin Hid) as [x [Hx <-]].
  destruct (He x Hx) as [y [Hy Hxy]]. exists y. auto.
Qed.

Lemma pres_modify_employees (f : list employee -> list employee) :
  (forall l x, In x l -> exists y, In y (f l) /\ e_id y = e_id x) ->
  pres (modify (fun s => set_employees (f (employees s)) s)).
Proof. intros Hf s Hs. apply (att_inv_ext s); [reflexivity|apply Hf|exact Hs]. Qed.

Lemma pres_issue q ps : pres (issue q ps).
Proof.
  unfold issue. apply pres_bind.
  - intros s Hs. apply (att_inv_ext s); [reflexivity| |exact Hs]. intros x Hx; eauto.
  - intros _. destruct (existsb (fun c => match c with Some s => has_nul s | None => false end) ps);
      [apply pres_raise|apply pres_ret].
Qed.

Lemma pres_bind_coerce {B} (n : nat) (c : cell) (k : cell -> M B) :
  (forall c', c' = option_map (substring 0 n) c -> pres (k c')) ->
  pres (bind (coerce (VarChar n) c) k).
Proof.
  intros Hk s Hs. unfold bind.
  destruct (coerce (VarChar n) c s) as [[c'|e] s'] eqn:E.
  - apply coerce_varchar in E as [-> Hc]. exact (Hk c' Hc s Hs).
  - pose proof (coerce_state (VarChar n) c s) as Hst. rewrite E in Hst. simpl in *.
    subst. exact Hs.
Qed.

Lemma pres_bind_coerce_text {B} (c : cell) (k : cell -> M B) :
  (forall c', c' = c -> pres (k c')) -> pres (bind (coerce Text c) k).
Proof. intros Hk. destruct c; apply Hk; reflexivity. Qed.

Lemma pres_bind_not_null {B} (column : string) (c : cell) (k : string -> M B) :
  (forall v, c = Some v -> pres (k v)) -> pres (bind (not_null column c) k).
Proof. intros Hk. destruct c as [v|]; [apply Hk; reflexivity|apply pres_raise]. Qed.

Lemma filter_keeps_distinct_ids (keep : attendance -> bool) (rows : list attendance) :
  NoDup (map a_id rows) -> NoDup (map a_id (filter keep rows)).
Proof.
  induction rows as [|row rows IH]; simpl; intros Hd; [constructor|].
  apply NoDup_cons_iff in Hd as [Hnot Hrest].
  destruct (keep row); simpl; [|exact (IH Hrest)].
  apply NoDup_cons; [|exact (IH Hrest)].
  rewrite in_map_iff. intros (other & Hid & Hin).
  apply filter_In in Hin as [Hin _]. apply Hnot.
  rewrite <- Hid. apply in_map. exact Hin.
Qed.

Lemma att_inv_filter (s s' : db) (p : attendance -> bool) :
  employees s' = employees s -> attendances s' = filter p (attendances s) ->
  att_inv s -> att_inv s'.
Proof.
  intros He Ha [H1 H2 H3]. split; rewrite Ha; try rewrite He.
  - apply filter_keeps_distinct_ids. exact H1.
  - intros a e Hin. apply filter_In in Hin as [Hin _]. eauto.
  - intros a e Hin. apply filter_In in Hin as [Hin _]. eauto.
Qed.

Lemma att_inv_map_status (s s' : db) (p : attendance -> bool) (v : string) :
  employees s' = employees s ->
  attendances s' = map (fun a => if p a then set_status v a else a) (attendances s) ->
  att_inv s -> att_inv s'.
Proof.
  intros He Ha [H1 H2 H3].
  assert (Hk : forall a, In a (map (fun a => if p a then set_status v a else a) (attendances s)) ->
                 exists b, In b (attendances s) /\ a_id a = a_id b /\ a_employee_id a = a_employee_id b
                           /\ a_date a = a_date b).
  { intros a Hin. apply in_map_iff in Hin as [b [<- Hb]]. exists b.
    destruct (p b); repeat split; auto. }
  split; rewrite Ha; try rewrite He.
  - rewrite map_map.
    replace (map (fun x => a_id (if p x then set_status v x else x)) (attendances s))
      with (map a_id (attendances s)); [exact H1|].
    apply map_ext. intros a. destruct (p a); reflexivity.
  - intros a e Hin Hid. destruct (Hk a Hin) as [b [Hb [-> [Hbe ->]]]].
    rewrite Hbe in Hid. eauto.
  - intros a e Hin Hid. destruct (Hk a Hin) as [b [Hb [_ [Hbe _]]]].
    rewrite Hbe in Hid. eauto.
Qed.

Lemma att_inv_same (s s' : db) :
  attendances s' = attendances s -> employees s' = employees s -> att_inv s -> att_inv s'.
Proof. intros Ha He. apply att_inv_ext; [exact Ha|]. rewrite He. eauto. Qed.

Lemma pres_read {A} (f : db -> A) : pres (bind get (fun s => ret (f s))).
Proof. apply pres_get_bind. intros s Hs. exact Hs. Qed.

Lemma set_employee_column_id e c v e' :
  set_employee_column e c v = Some e' -> e_id e' = e_id e.
Proof.
  destruct e as [i n em ph ad de ou]. unfold set_employee_column.
  repeat match goal with |- context [if ?b then _ else _] => destruct b end;
    try destruct v; intros H; inversion H; reflexivity.
Qed.

Lemma set_employee_columns_id e sets e' :
  set_employee_columns e sets = Some e' -> e_id e' = e_id e.
Proof.
  revert e. induction sets as [|[c v] sets IH]; simpl; intros e H.
  - inversion H; reflexivity.
  - destruct (set_employee_column e c v) as [e1|] eqn:E; [|discriminate].
    rewrite (IH e1 H). exact (set_employee_column_id _ _ _ _ E).
Qed.

Lemma update_rows_spec sets id l s r s' :
  update_rows sets id l s = (r, s') ->
  s' = s /\ (forall l', r = inl l' -> map e_id l' = map e_id l).
Proof.
  revert r s'. induction l as [|e l IH]; intros r s'; simpl update_rows; unfold bind, ret, raise.
  - intros H; inversion H; subst. split; [reflexivity|]. intros l' H'; inversion H'; reflexivity.
  - destruct (update_rows sets id l s) as [[rest|ex] s1] eqn:E;
      destruct (IH _ _ eq_refl) as [-> Hrest].
    + destruct (sql_eq (Some (e_id e)) id) eqn:Eq; simpl in Eq; rewrite Eq.
      * destruct (set_employee_columns e sets) as [e'|] eqn:Ee; intros H; inversion H; subst.
        -- split; [reflexivity|]. intros l' H'; inversion H'; subst. simpl. f_equal;
             [apply (set_employee_columns_id _ _ _ Ee)|apply Hrest; reflexivity].
        -- split; [reflexivity|discriminate].
      * intros H; inversion H; subst. split; [reflexivity|].
        intros l' H'; inversion H'; subst. simpl. f_equal. apply Hrest; reflexivity.
    + intros H; inversion H; subst. split; [reflexivity|discriminate].
Qed.

Lemma coerce_sets_state sets s : snd (coerce_sets sets s) = s.
Proof.
  revert s. induction sets as [|[c v] sets IH]; intros s; simpl; [reflexivity|].
  unfold bind. pose proof (coerce_state (employee_coltype c) v s) as H.
  destruct (coerce (employee_coltype c) v s) as [[v'|e] s1]; simpl in H; subst; [|reflexivity].
  specialize (IH s). destruct (coerce_sets sets s) as [[rest|e] s2]; simpl in *; auto.
Qed.

Lemma pres_sql_update_employee q sets id : pres (sql_update_employee q sets id).
Proof.
  unfold sql_update_employee. apply pres_bind; [apply pres_issue|intros _].
  apply pres_bind.
  { intros s Hs. rewrite coerce_sets_state. exact Hs. }
  intros sets'. apply pres_get_bind. intros s Hs. unfold bind.
  destruct (update_rows sets' id (employees s) s) as [r s'] eqn:E.
  apply update_rows_spec in E as [-> Hl]. destruct r as [l|e]; [|exact Hs].
  specialize (Hl l eq_refl). simpl.
  apply (att_inv_ext s); [reflexivity| |exact Hs]. simpl.
  intros x Hx. assert (Hin : In (e_id x) (map e_id l)) by (rewrite Hl; apply in_map; exact Hx).
  apply in_map_iff in Hin as [y [Hy Hin]]. eauto.
Qed.

Lemma pres_sql_insert_employee id name email phone address department outlet :
  pres (sql_insert_employee id name email phone address department outlet).
Proof.
  unfold sql_insert_employee. apply pres_bind; [apply pres_issue|intros _].
  repeat (apply pres_bind_coerce; intros ? _).
  apply pres_bind_coerce_text; intros ? _.
  repeat (apply pres_bind_coerce; intros ? _).
  apply pres_bind_not_null; intros i _. apply pres_bind_not_null; intros n _.
  apply pres_get_bind. intros s Hs.
  match goal with |- context [if ?c then _ else _] => destruct c end; [exact Hs|].
  simpl. apply (att_inv_ext s); [reflexivity| |exact Hs].
  intros x Hx. exists x. split; [apply in_or_app; left; exact Hx|reflexivity].
Qed.

Lemma pres_sql_delete_attendance_of id : pres (sql_delete_attendance_of id).
Proof.
  unfold sql_delete_attendance_of. apply pres_bind; [apply pres_issue|intros _].
  apply pres_get_bind. intros s Hs.
  apply (att_inv_filter s _ (fun a => negb (sql_eq (a_employee_id a) id)));
    [reflexivity|reflexivity|exact Hs].
Qed.

Lemma pres_sql_delete_employee id : pres (sql_delete_employee id).
Proof.
  unfold sql_delete_employee. apply pres_bind; [apply pres_issue|intros _].
  apply pres_get_bind. intros s [H1 H2 H3]. simpl.
  split; simpl.
  - apply filter_keeps_distinct_ids. exact H1.
  - intros a e Hin. apply filter_In in Hin as [Hin _]. eauto.
  - intros a e Hin Hid. apply filter_In in Hin as [Hin Hkeep].
    destruct (H3 a e Hin Hid) as [x [Hx Hxe]]. exists x. split; [|exact Hxe].
    apply filter_In. split; [exact Hx|].
    destruct (sql_eq (Some (e_id x)) id) eqn:Ehit; simpl in Ehit; rewrite Ehit; [|reflexivity].
    exfalso. apply negb_true_iff in Hkeep.
    erewrite (proj2 (existsb_exists _ _)) in Hkeep; [discriminate|].
    exists x. split; [apply filter_In; auto|].
    rewrite Hid, <- Hxe. apply sql_eq_refl.
Qed.

Lemma pres_sql_update_status st e d : pres (sql_update_status st e d).
Proof.
  unfold sql_update_status. apply pres_bind; [apply pres_issue|intros _].
  apply pres_bind_coerce. intros st' _. apply pres_get_bind. intros s Hs.
  destruct (existsb (att_match e d) (attendances s)); [|exact Hs].
  destruct st' as [v|]; [|exact Hs]. cbv [bind not_null modify ret]. simpl.
  apply (att_inv_map_status s _ (att_match e d) v); [reflexivity|reflexivity|exact Hs].
Qed.

Lemma NoDup_snoc {A} (l : list A) (x : A) : NoDup l -> ~ In x l -> NoDup (l ++ [x]).
Proof.
  induction l as [|y l IH]; simpl; intros Hl Hx.
  - constructor; [intros []|constructor].
  - inversion Hl as [|? ? Hy Hl']; subst. constructor.
    + intros Hin. apply in_app_or in Hin as [Hin|[<-|[]]]; [exact (Hy Hin)|apply Hx; left; reflexivity].
    + apply IH; [exact Hl'|]. intros Hin; apply Hx; right; exact Hin.
Qed.

(** The insert of the upsert keeps the invariant when its id is
    [x ++ "-" ++ y] and its employee id and date are [x] and [y] (or NULL). *)
Lemma pres_sql_insert_attendance (x y : string) (e d st o : cell) :
  (e = None \/ e = Some x) -> (d = None \/ d = Some y) ->
  pres (sql_insert_attendance (Some (x ++ "-" ++ y)) e d st o).
Proof.
  intros He Hd. unfold sql_insert_attendance. apply pres_bind; [apply pres_issue|intros _].
  apply pres_bind_coerce; intros i Hi. apply pres_bind_coerce; intros e' He'.
  apply pres_bind_coerce; intros d' Hd'. apply pres_bind_coerce; intros st' _.
  apply pres_bind_coerce; intros o' _.
  apply pres_bind_not_null; intros iv Hiv. apply pres_bind_not_null; intros dv Hdv.
  apply pres_bind_not_null; intros sv _.
  apply pres_get_bind. intros s [H1 H2 H3].
  destruct (existsb (fun a => String.eqb (a_id a) iv) (attendances s)) eqn:Eu; [split; auto|].
  destruct (match e' with
            | Some ee => negb (existsb (fun x0 => String.eqb (e_id x0) ee) (employees s))
            | None => false
            end) eqn:Ef; [split; auto|].
  subst i. simpl in Hiv. inversion Hiv; subst iv. clear Hiv.
  assert (Hdy : dv = substring 0 255 y).
  { subst d'. destruct Hd as [ -> | -> ]; simpl in Hdv; inversion Hdv; reflexivity. }
  cbv [bind modify ret]. simpl. split; simpl.
  - rewrite map_app. apply NoDup_snoc; [exact H1|]. intros Hin.
    apply in_map_iff in Hin as [a [Ha Hin]].
    assert (Hc : existsb (fun a => String.eqb (a_id a) (substring 0 255 (x ++ "-" ++ y)))
                         (attendances s) = true).
    { apply existsb_exists. exists a. split; [exact Hin|]. apply String.eqb_eq. exact Ha. }
    simpl in Hc. congruence.
  - intros a ee Hin Hid. apply in_app_or in Hin as [Hin|[<-|[]]]; [eauto|].
    simpl in Hid |- *. subst e'. destruct He as [ -> | -> ]; simpl in Hid; inversion Hid; subst ee.
    rewrite Hdy. apply prefix_dash.
  - intros a ee Hin Hid. apply in_app_or in Hin as [Hin|[<-|[]]]; [eauto|].
    simpl in Hid. rewrite Hid in Ef. apply negb_false_iff, existsb_exists in Ef as [z [Hz Hze]].
    exists z. split; [exact Hz|]. apply String.eqb_eq. exact Hze.
Qed.

Lemma pres_sql_delete_attendance e d : pres (sql_delete_attendance e d).
Proof.
  unfold sql_delete_attendance. apply pres_bind; [apply pres_issue|intros _].
  apply pres_get_bind. intros s Hs. cbv [bind modify ret]. simpl.
  apply (att_inv_filter s _ (fun a => negb (att_match e d a))); [reflexivity|reflexivity|exact Hs].
Qed.

Lemma pres_sql_insert_department id name description outlet :
  pres (sql_insert_department id name description outlet).
Proof.
  unfold sql_insert_department. apply pres_bind; [apply pres_issue|intros _].
  apply pres_bind_coerce; intros ? _. apply pres_bind_coerce; intros ? _.
  apply pres_bind_coerce_text; intros ? _. apply pres_bind_coerce; intros ? _.
  apply pres_bind_not_null; intros ? _. apply pres_bind_not_null; intros ? _.
  apply pres_get_bind. intros s Hs.
  match goal with |- context [if ?c then _ else _] => destruct c end; [exact Hs|].
  apply (att_inv_same s); [reflexivity|reflexivity|exact Hs].
Qed.

Lemma pres_sql_delete_department id : pres (sql_delete_department id).
Proof.
  unfold sql_delete_department. apply pres_bind; [apply pres_issue|intros _].
  apply pres_get_bind. intros s Hs. apply (att_inv_same s); [reflexivity|reflexivity|exact Hs].
Qed.

Lemma to_param_cases (v : jsval) : to_param v = None \/ to_param v = Some (js_string v).
Proof. destruct v; auto. Qed.

Lemma pres_handler (en : env) (r : request) : pres (handler en r).
Proof.
  destruct r; unfold handler, get_employees, post_employees, patch_employee, delete_employee,
    get_departments, post_departments, delete_department, get_attendance, post_attendance,
    delete_attendance;
  (destruct (pool en); simpl negb; cbv iota; [|apply pres_ret]).
  - apply pres_bind; [apply pres_bind; [apply pres_issue|intros _; apply pres_read]|].
    intros; apply pres_ret.
  - apply pres_bind; [apply pres_sql_insert_employee|intros; apply pres_ret].
  - destruct (build_update patch_columns b 1) as [[fs vs] k].
    destruct (Nat.eqb (List.length fs) 0); [apply pres_ret|].
    apply pres_bind; [apply pres_sql_update_employee|intros [|? ?]; apply pres_ret].
  - apply pres_bind; [apply pres_sql_delete_attendance_of|intros _].
    apply pres_bind; [apply pres_sql_delete_employee|intros [|? ?]; apply pres_ret].
  - apply pres_bind; [apply pres_bind; [apply pres_issue|intros _; apply pres_read]|].
    intros; apply pres_ret.
  - apply pres_bind; [apply pres_sql_insert_department|intros; apply pres_ret].
  - apply pres_bind; [apply pres_sql_delete_department|intros [|? ?]; apply pres_ret].
  - apply pres_bind; [apply pres_bind; [apply pres_issue|intros _; apply pres_read]|].
    intros; apply pres_ret.
  - apply pres_bind; [apply pres_bind; [apply pres_issue|intros _; apply pres_read]|intros outlets].
    apply pres_bind; [apply pres_bind; [apply pres_issue|intros _; apply pres_read]|intros ex].
    apply pres_bind; [|intros [|? ?]; [apply pres_raise|apply pres_ret]].
    destruct (Nat.ltb 0 (List.length ex)); [apply pres_sql_update_status|].
    apply pres_sql_insert_attendance; apply to_param_cases.
  - apply pres_bind; [apply pres_sql_delete_attendance|intros [|? ?]; apply pres_ret].
Qed.

Lemma reachable_att_inv (s : db) : reachable s -> att_inv s.
Proof.
  induction 1 as [|en r s _ IH].
  - split; simpl; [constructor|intros a e []|intros a e []].
  - unfold serve. rewrite snd_run. exact (pres_handler en r s IH).
Qed.

Lemma filter_same_key {A} (f : A -> string) (p : A -> bool) (k : string) (l : list A) :
  NoDup (map f l) -> (forall x, In x l -> p x = true -> f x = k) ->
  List.length (filter p l) <= 1.
Proof.
  induction l as [|x l IH]; simpl; intros Hd Hk; [lia|].
  inversion Hd as [|? ? Hx Hd']; subst.
  destruct (p x) eqn:Ep; simpl; [|apply IH; auto].
  destruct (filter p l) as [|y l'] eqn:Ef; simpl; [lia|].
  exfalso. assert (Hy : In y (filter p l)) by (rewrite Ef; left; reflexivity).
  apply filter_In in Hy as [Hy Hpy]. apply Hx.
  rewrite (Hk x (or_introl eq_refl) Ep), <- (Hk y (or_intror Hy) Hpy).
  apply in_map. exact Hy.
Qed.

Lemma filter_none {A} (p : A -> bool) (l : list A) :
  (forall x, In x l -> p x = false) -> filter p l = [].
Proof.
  induction l as [|x l IH]; simpl; intros H; [reflexivity|].
  rewrite (H x (or_introl eq_refl)). apply IH. intros y Hy. apply H. right. exact Hy.
Qed.

Lemma filter_snoc_one {A} (p : A -> bool) (l : list A) (x : A) :
  filter p l = [] -> p x = true -> filter p (l ++ [x]) = [x].
Proof. intros Hl Hx. rewrite filter_app, Hl. simpl. rewrite Hx. reflexivity. Qed.

Lemma existsb_snoc {A} (p : A -> bool) (l : list A) (x : A) :
  p x = true -> existsb p (l ++ [x]) = true.
Proof. intros Hx. rewrite existsb_app. simpl. rewrite Hx, orb_true_r. reflexivity. Qed.

Lemma map_if_none {A} (p : A -> bool) (f : A -> A) (l : list A) :
  filter p l = [] -> map (fun a => if p a then f a else a) l = l.
Proof.
  induction l as [|x l IH]; simpl; [reflexivity|].
  destruct (p x); [discriminate|]. intros H. rewrite IH by exact H. reflexivity.
Qed.

Lemma filter_nil_of_ltb {A} (p : A -> bool) (l : list A) :
  Nat.ltb 0 (List.length (filter p l)) = false -> filter p l = [].
Proof. destruct (filter p l); [reflexivity|discriminate]. Qed.

Lemma att_match_row (i x y v : string) (o : cell) :
  att_match (Some x) (Some y) (mkAttendance i (Some x) y v o) = true.
Proof. unfold att_match. simpl. rewrite !String.eqb_refl. reflexivity. Qed.

(** *** Successful runs of the insert statements *)

Lemma bind_inl {A B} (m : M A) (k : A -> M B) (s : db) (x : B) (s' : db) :
  bind m k s = (inl x, s') -> exists a s1, m s = (inl a, s1) /\ k a s1 = (inl x, s').
Proof. unfold bind. destruct (m s) as [[a|e] s1]; intros H; [eauto|discriminate]. Qed.

Lemma issue_inl (q : string) (ps : list cell) (s s' : db) (u : unit) :
  issue q ps s = (inl u, s') -> s' = add_log (q, ps) s.
Proof.
  unfold issue, bind, modify. simpl.
  destruct (existsb (fun c => match c with Some x => has_nul x | None => false end) ps);
    simpl; intros H; [discriminate|injection H; auto].
Qed.

Lemma coerce_text_inl (c c' : cell) (s s' : db) :
  coerce Text c s = (inl c', s') -> c' = c /\ s' = s.
Proof. destruct c; simpl; intros H; injection H; auto. Qed.

Lemma not_null_inl (column : string) (c : cell) (x : string) (s s' : db) :
  not_null column c s = (inl x, s') -> c = Some x /\ s' = s.
Proof. destruct c; simpl; intros H; [injection H; intros; subst; auto|discriminate]. Qed.

Lemma existsb_false_filter {A} (p : A -> bool) (l : list A) :
  existsb p l = false -> filter p l = [].
Proof.
  induction l as [|x l IH]; simpl; [reflexivity|].
  destruct (p x); simpl; [discriminate|exact IH].
Qed.

Lemma sql_insert_employee_inl (id name email phone address department outlet : cell)
    (s s' : db) (rows : list employee) :
  sql_insert_employee id name email phone address department outlet s = (inl rows, s') ->
  exists r, rows = [r]
    /\ employees s' = (employees s ++ [r])%list
    /\ departments s' = departments s /\ attendances s' = attendances s
    /\ existsb (fun x => String.eqb (e_id x) (e_id r)) (employees s) = false
    /\ e_email r = option_map (substring 0 255) email
    /\ e_phone r = option_map (substring 0 255) phone
    /\ e_address r = address
    /\ e_department r = option_map (substring 0 255) department
    /\ e_outlet r = option_map (substring 0 255) outlet.
Proof.
  unfold sql_insert_employee. intros H.
  apply bind_inl in H as (u & s1 & E & H). apply issue_inl in E.
  apply bind_inl in H as (c1 & s2 & E1 & H). apply coerce_varchar in E1 as [-> _].
  apply bind_inl in H as (c2 & s3 & E2 & H). apply coerce_varchar in E2 as [-> _].
  apply bind_inl in H as (c3 & s4 & E3 & H). apply coerce_varchar in E3 as [-> ->].
  apply bind_inl in H as (c4 & s5 & E4 & H). apply coerce_varchar in E4 as [-> ->].
  apply bind_inl in H as (c5 & s6 & E5 & H). apply coerce_text_inl in E5 as [-> ->].
  apply bind_inl in H as (c6 & s7 & E6 & H). apply coerce_varchar in E6 as [-> ->].
  apply bind_inl in H as (c7 & s8 & E7 & H). apply coerce_varchar in E7 as [-> ->].
  apply bind_inl in H as (i & s9 & E8 & H). apply not_null_inl in E8 as [_ ->].
  apply bind_inl in H as (n & s10 & E9 & H). apply not_null_inl in E9 as [_ ->].
  apply bind_inl in H as (s11 & s12 & E10 & H). unfold get in E10.
  injection E10 as <- <-.
  destruct (existsb (fun e => String.eqb (e_id e) i) (employees s1)) eqn:Ex; [discriminate|].
  unfold bind, modify, ret in H. injection H as <- <-. subst s1.
  eexists. repeat split; reflexivity || exact Ex.
Qed.

Lemma sql_insert_department_inl (id name description outlet : cell)
    (s s' : db) (rows : list department) :
  sql_insert_department id name description outlet s = (inl rows, s') ->
  exists r, rows = [r]
    /\ departments s' = (departments s ++ [r])%list
    /\ employees s' = employees s /\ attendances s' = attendances s
    /\ existsb (fun x => String.eqb (d_id x) (d_id r)) (departments s) = false
    /\ d_description r = description
    /\ d_outlet r = option_map (substring 0 255) outlet.
Proof.
  unfold sql_insert_department. intros H.
  apply bind_inl in H as (u & s1 & E & H). apply issue_inl in E.
  apply bind_inl in H as (c1 & s2 & E1 & H). apply coerce_varchar in E1 as [-> _].
  apply bind_inl in H as (c2 & s3 & E2 & H). apply coerce_varchar in E2 as [-> _].
  apply bind_inl in H as (c3 & s4 & E3 & H). apply coerce_text_inl in E3 as [-> ->].
  apply bind_inl in H as (c4 & s5 & E4 & H). apply coerce_varchar in E4 as [-> ->].
  apply bind_inl in H as (i & s6 & E5 & H). apply not_null_inl in E5 as [_ ->].
  apply bind_inl in H as (n & s7 & E6 & H). apply not_null_inl in E6 as [_ ->].
  apply bind_inl in H as (s8 & s9 & E7 & H). unfold get in E7.
  injection E7 as <- <-.
  destruct (existsb (fun d => String.eqb (d_id d) i) (departments s1)) eqn:Ex; [discriminate|].
  unfold bind, modify, ret in H. injection H as <- <-. subst s1.
  eexists. repeat split; reflexivity || exact Ex.
Qed.

(** *** Failing runs that leave the tables *)

Lemma bind_keep {A B} (m : M A) (k : A -> M B) (s : db) :
  tables (snd (m s)) = tables s ->
  (forall a s1, m s = (inl a, s1) -> fails_keeping (k a) s1) ->
  fails_keeping (bind m k) s.
Proof.
  unfold fails_keeping, bind. destruct (m s) as [[a|e] s1]; simpl; intros Ht Hk.
  - destruct (Hk a s1 eq_refl) as (ex & H1 & H2). exists ex. split; [exact H1|congruence].
  - exists e. split; [reflexivity|exact Ht].
Qed.

Lemma issue_state (q : string) (ps : list cell) (s : db) :
  snd (issue q ps s) = add_log (q, ps) s.
Proof.
  unfold issue, bind, modify. simpl.
  destruct (existsb (fun c => match c with Some x => has_nul x | None => false end) ps);
    reflexivity.
Qed.

Lemma not_null_state (column : string) (c : cell) (s : db) : snd (not_null column c s) = s.
Proof. destruct c; reflexivity. Qed.

Ltac keep_step :=
  apply bind_keep;
  [ first [ rewrite coerce_state | rewrite issue_state | rewrite not_null_state ]; reflexivity
  | intros ? ? ? ].

Lemma sql_insert_employee_no_name (id email phone address department outlet : cell) (s : db) :
  fails_keeping (sql_insert_employee id None email phone address department outlet) s.
Proof.
  unfold sql_insert_employee.
  keep_step. keep_step.
  apply bind_keep; [rewrite coerce_state; reflexivity|].
  intros c ? E. apply coerce_varchar in E as [_ ->]. simpl option_map.
  do 6 keep_step.
  apply bind_keep; [reflexivity|]. intros ? ? E. discriminate E.
Qed.

Lemma sql_insert_department_no_name (id description outlet : cell) (s : db) :
  fails_keeping (sql_insert_department id None description outlet) s.
Proof.
  unfold sql_insert_department.
  keep_step. keep_step.
  apply bind_keep; [rewrite coerce_state; reflexivity|].
  intros c ? E. apply coerce_varchar in E as [_ ->]. simpl option_map.
  do 3 keep_step.
  apply bind_keep; [reflexivity|]. intros ? ? E. discriminate E.
Qed.

Lemma fails_keeping_run {A} (m : M A) (k : A -> M response) (s : db) :
  fails_keeping m s ->
  exists ex, run (bind m k) s = (mkResponse 500 (BException ex), snd (m s))
             /\ tables (snd (m s)) = tables s.
Proof.
  intros (ex & H1 & H2). exists ex. unfold run, bind.
  destruct (m s) as [[a|e] s1]; simpl in *; [discriminate|].
  injection H1 as ->. split; [reflexivity|exact H2].
Qed.

(** Split every conditional of a goal, discarding contradictory branches. *)
Ltac case_m :=
  repeat (match goal with
          | |- context [if ?c then _ else _] => destruct c eqn:?
          | |- context [match ?x with Some _ => _ | None => _ end] => destruct x eqn:?
          | |- context [match ?x with [] => _ | _ :: _ => _ end] => destruct x eqn:?
          end; simpl; try congruence).

(** ** Claims *)

(** C9: without a configured pool, every data endpoint answers 503
    ["Database not available"] and sends no statement: the store, and its
    statement log, are left as they were. *)
Theorem no_pool_short_circuits (en : env) (r : request) (s : db) :
  pool en = false ->
  fst (serve en r s) = mkResponse 503 (BError "Database not available")
  /\ snd (serve en r s) = s.
Proof.
  intros Hp.
  destruct r; unfold serve, run, handler, get_employees, post_employees, patch_employee,
    delete_employee, get_departments, post_departments, delete_department, get_attendance,
    post_attendance, delete_attendance; rewrite Hp; split; reflexivity.
Qed.

Lemma no_pool_short_circuits_witness :
  pool (mkEnv false 0) = false
  /\ fst (serve (mkEnv false 0) (PostAttendance [("employeeId", JStr "emp-1")]) init_db)
     = mkResponse 503 (BError "Database not available")
  /\ snd (serve (mkEnv false 0) (PostAttendance [("employeeId", JStr "emp-1")]) init_db)
     = init_db.
Proof.
  split; [reflexivity|].
  apply (no_pool_short_circuits (mkEnv false 0)). reflexivity.
Defined.

(** C5: a PATCH whose body sets none of the six columns builds no SET item
    and sends no statement, leaving the store (and its statement log)
    unchanged; with a configured pool it answers 400 ["No fields to
    update"] (without one, the 503 that every handler gives). *)
Theorem patch_without_fields_issues_nothing (en : env) (id : string) (b : obj) (s : db) :
  (forall c, In c patch_columns -> field b c = JUndefined) ->
  serve en (PatchEmployee id b) s
  = (if pool en then mkResponse 400 (BError "No fields to update") else unavailable, s).
Proof.
  intros H.
  unfold serve, run, handler, patch_employee.
  destruct (pool en); [|reflexivity].
  cbv beta iota delta [negb patch_columns build_update].
  rewrite !(H "name"), !(H "email"), !(H "phone"), !(H "address"),
    !(H "department"), !(H "outlet") by (simpl; tauto).
  reflexivity.
Qed.

Lemma patch_without_fields_issues_nothing_witness :
  (forall c, In c patch_columns -> field [("id", JStr "x")] c = JUndefined)
  /\ serve ex_env (PatchEmployee "emp-1" [("id", JStr "x")]) init_db
     = (mkResponse 400 (BError "No fields to update"), init_db).
Proof.
  assert (H : forall c, In c patch_columns -> field [("id", JStr "x")] c = JUndefined).
  { intros c Hc. simpl in Hc.
    repeat (destruct Hc as [<-|Hc]; [reflexivity|]). destruct Hc. }
  split; [exact H|].
  apply (patch_without_fields_issues_nothing ex_env "emp-1" _ init_db H).
Defined.

(** C6: when [DELETE /api/employees/:id] answers 200, no attendance row of
    the store references [id] any more, and the handler first deleted that
    employee's attendance rows, then the employee row, as two statements. *)
Theorem delete_employee_cascades (en : env) (id : string) (s : db) :
  status (fst (serve en (DeleteEmployee id) s)) = 200%Z ->
  (forall a, In a (attendances (snd (serve en (DeleteEmployee id) s))) ->
             a_employee_id a <> Some id)
  /\ log (snd (serve en (DeleteEmployee id) s))
     = (log s ++ [("DELETE FROM attendance WHERE employee_id = $1", [Some id]);
                  ("DELETE FROM employees WHERE id = $1 RETURNING *", [Some id])])%list.
Proof.
  unfold serve, run, handler, delete_employee.
  destruct (pool en); [|discriminate].
  unfold_m. simpl.
  destruct (has_nul id || false); simpl; [discriminate|].
  destruct (filter (fun e => e_id e =? id) (employees s)); simpl; [discriminate|].
  intros _. split.
  - intros a Ha Hid.
    apply filter_In in Ha as [Ha _]. apply filter_In in Ha as [_ Ha].
    rewrite Hid, sql_eq_refl in Ha. discriminate.
  - rewrite <- app_assoc. reflexivity.
Qed.

Lemma delete_employee_cascades_witness :
  let s := snd (serve ex_env (PostAttendance [("employeeId", JStr "emp-1"); ("date", JStr "2024-01-01");
                                             ("status", JStr "present")])
                 (snd (serve ex_env (PostEmployees [("name", JStr "Ann")]) init_db))) in
  status (fst (serve ex_env (DeleteEmployee "emp-1") s)) = 200%Z
  /\ ((forall a, In a (attendances (snd (serve ex_env (DeleteEmployee "emp-1") s))) ->
                a_employee_id a <> Some "emp-1")
      /\ log (snd (serve ex_env (DeleteEmployee "emp-1") s))
         = (log s ++ [("DELETE FROM attendance WHERE employee_id = $1", [Some "emp-1"]);
                      ("DELETE FROM employees WHERE id = $1 RETURNING *", [Some "emp-1"])])%list).
Proof.
  intros s. assert (H : status (fst (serve ex_env (DeleteEmployee "emp-1") s)) = 200%Z)
    by (vm_compute; reflexivity).
  split; [exact H|]. exact (delete_employee_cascades ex_env "emp-1" s H).
Defined.

Lemma existsb_filter_length {A} (f : A -> bool) (l : list A) :
  existsb f l = true -> Nat.ltb 0 (List.length (filter f l)) = true.
Proof.
  intros H. apply existsb_exists in H as [x [Hx Hf]].
  apply Nat.ltb_lt. destruct (filter f l) eqn:E; simpl; [|lia].
  assert (In x (filter f l)) by (apply filter_In; auto). rewrite E in H. destruct H.
Qed.

Lemma att_key_set_status (v : string) (a : attendance) : att_key (set_status v a) = att_key a.
Proof. reflexivity. Qed.

Lemma keeps_att_bind {A B} (m : M A) (k : A -> M B) :
  keeps_att m -> (forall a, keeps_att (k a)) -> keeps_att (bind m k).
Proof.
  intros Hm Hk s. unfold bind. specialize (Hm s).
  destruct (m s) as [[a|e] s'] eqn:E; simpl in *; [rewrite Hk|]; exact Hm.
Qed.

Lemma keeps_att_ret {A} (a : A) : keeps_att (ret a).
Proof. intros s; reflexivity. Qed.

Lemma keeps_att_raise {A} (e : exn) : keeps_att (@raise A e).
Proof. intros s; reflexivity. Qed.

Lemma keeps_att_issue q ps : keeps_att (issue q ps).
Proof.
  unfold issue. apply keeps_att_bind; [intros s; reflexivity|].
  intros _. destruct (existsb (fun c => match c with Some s => has_nul s | None => false end) ps);
    [apply keeps_att_raise|apply keeps_att_ret].
Qed.

Lemma keeps_att_coerce t c : keeps_att (coerce t c).
Proof.
  destruct t as [n|], c as [x|]; simpl; try apply keeps_att_ret.
  destruct (Nat.leb (String.length x) n); [apply keeps_att_ret|].
  destruct (all_spaces (substring n (String.length x - n) x));
    [apply keeps_att_ret|apply keeps_att_raise].
Qed.

Lemma keeps_att_coerce_sets sets : keeps_att (coerce_sets sets).
Proof.
  induction sets as [|[c v] sets IH]; simpl; [apply keeps_att_ret|].
  apply keeps_att_bind; [apply keeps_att_coerce|]. intros v'.
  apply keeps_att_bind; [exact IH|]. intros; apply keeps_att_ret.
Qed.

Lemma keeps_att_update_rows sets id l : keeps_att (update_rows sets id l).
Proof.
  induction l as [|e l IH]; simpl update_rows; [apply keeps_att_ret|].
  apply keeps_att_bind; [exact IH|]. intros rest.
  destruct (sql_eq (Some (e_id e)) id) eqn:E; cbv beta iota; simpl in E; rewrite E;
    [|apply keeps_att_ret].
  destruct (set_employee_columns e sets); [apply keeps_att_ret|apply keeps_att_raise].
Qed.

Lemma keeps_att_update_employee q sets id : keeps_att (sql_update_employee q sets id).
Proof.
  unfold sql_update_employee.
  apply keeps_att_bind; [apply keeps_att_issue|]. intros _.
  apply keeps_att_bind; [apply keeps_att_coerce_sets|]. intros sets'.
  apply keeps_att_bind; [intros s; reflexivity|]. intros s0.
  apply keeps_att_bind; [apply keeps_att_update_rows|]. intros l.
  apply keeps_att_bind; [intros s; reflexivity|]. intros _. apply keeps_att_ret.
Qed.

Lemma map_att_key_update (f : attendance -> bool) (v : string) (l : list attendance) :
  map att_key (map (fun a => if f a then set_status v a else a) l) = map att_key l.
Proof.
  rewrite map_map. apply map_ext. intros a. destruct (f a); reflexivity.
Qed.

(** C8: when a row for [(employeeId, date)] exists, the upsert changes at
    most the [status] of the attendance rows: their ids, employee ids, dates
    and outlets, and their order, are those of before.  And editing an
    employee (PATCH, including its [outlet]) never touches the attendance
    table, so the outlet copied into an attendance row at insert time stays. *)
Theorem upsert_update_keeps_row_identity :
  (forall en b s,
     existsb (att_match (to_param (field b "employeeId")) (to_param (field b "date")))
             (attendances s) = true ->
     map att_key (attendances (snd (serve en (PostAttendance b) s)))
     = map att_key (attendances s))
  /\ (forall en id b s, attendances (snd (serve en (PatchEmployee id b) s)) = attendances s).
Proof.
  split.
  - intros en b s Hex.
    unfold serve, run, handler, post_attendance.
    destruct (pool en); [|reflexivity].
    remember (to_param (field b "employeeId")) as pe.
    remember (to_param (field b "date")) as pd.
    remember (to_param (field b "status")) as ps.
    pose proof (existsb_filter_length _ _ Hex) as Hlen.
    unfold_m. simpl.
    repeat (match goal with
            | |- context [if ?c then _ else _] => destruct c eqn:?
            | |- context [match ?x with Some _ => _ | None => _ end] => destruct x eqn:?
            | |- context [match ?x with [] => _ | _ :: _ => _ end] => destruct x eqn:?
            end; simpl; try congruence).
    all: try reflexivity.
    all: apply map_att_key_update.
  - intros en id b s.
    unfold serve. rewrite snd_run. unfold handler, patch_employee.
    destruct (pool en); [|reflexivity].
    destruct (build_update patch_columns b 1) as [[fs vs] k].
    destruct (Nat.eqb (List.length fs) 0); [reflexivity|].
    apply keeps_att_bind; [apply keeps_att_update_employee|].
    intros [|r rows]; intros s'; reflexivity.
Qed.

Lemma upsert_update_keeps_row_identity_witness :
  let s := snd (serve ex_env (ex_upsert "present")
                  (snd (serve ex_env (PostEmployees [("name", JStr "Ann"); ("outlet", JStr "North")])
                          init_db))) in
  let b := [("employeeId", JStr "emp-1"); ("date", JStr "2024-01-01"); ("status", JStr "absent")] in
  existsb (att_match (to_param (field b "employeeId")) (to_param (field b "date")))
          (attendances s) = true
  /\ map att_key (attendances (snd (serve ex_env (PostAttendance b) s)))
     = map att_key (attendances s).
Proof.
  intros s b.
  assert (H : existsb (att_match (to_param (field b "employeeId")) (to_param (field b "date")))
                      (attendances s) = true) by (vm_compute; reflexivity).
  split; [exact H|]. exact (proj1 upsert_update_keeps_row_identity ex_env b s H).
Defined.

Lemma ex_store_reachable : reachable ex_store.
Proof. unfold ex_store. apply reachable_step, reachable_step, reachable_init. Qed.

(** C10: [`${employeeId}-${date}`] is not injective, and from a reachable
    store an upsert for a pair without any row fails on the primary key of
    the row of another pair: ([emp-1-2024], [01-01]) against the stored
    ([emp-1], [2024-01-01]), both with id [emp-1-2024-01-01]. *)
Theorem attendance_id_not_injective :
  (exists e1 d1 e2 d2, (e1, d1) <> (e2, d2) /\ attendance_id e1 d1 = attendance_id e2 d2)
  /\ (exists s b,
        reachable s
        /\ filter (att_match (to_param (field b "employeeId")) (to_param (field b "date")))
                  (attendances s) = []
        /\ existsb (fun a => String.eqb (a_id a)
                               (attendance_id (field b "employeeId") (field b "date")))
                   (attendances s) = true
        /\ fst (serve ex_env (PostAttendance b) s)
           = mkResponse 500 (BException (UniqueViolation "attendance_pkey"))).
Proof.
  split.
  - exists (JStr "emp-1"), (JStr "2024-01-01"), (JStr "emp-1-2024"), (JStr "01-01").
    split; [discriminate|reflexivity].
  - exists ex_store,
      [("employeeId", JStr "emp-1-2024"); ("date", JStr "01-01"); ("status", JStr "present")].
    split; [apply ex_store_reachable|].
    vm_compute. auto.
Qed.

(** C2 (as amended): in every reachable store, at most one attendance row
    has a given non-NULL [employee_id] and a given [date].  The upsert's
    existence check avoids a second insert for a pair, and the attendance
    primary key, whose id is derived from the pair, refuses one when the
    check is passed by. *)
Theorem attendance_pair_unique (s : db) :
  reachable s ->
  forall e d, List.length (filter (att_match (Some e) (Some d)) (attendances s)) <= 1.
Proof.
  intros Hr e d. destruct (reachable_att_inv s Hr) as [H1 H2 H3].
  apply (filter_same_key a_id _ (substring 0 255 (e ++ "-" ++ d))); [exact H1|].
  intros a Hin Hm. unfold att_match in Hm. apply andb_true_iff in Hm as [He Hd].
  apply sql_eq_some in He. apply sql_eq_some in Hd. inversion Hd as [Hd'].
  rewrite (H2 a e Hin He), Hd'. reflexivity.
Qed.

Lemma attendance_pair_unique_witness :
  reachable ex_store
  /\ List.length (filter (att_match (Some "emp-1") (Some "2024-01-01")) (attendances ex_store)) <= 1.
Proof.
  split; [exact ex_store_reachable|].
  exact (attendance_pair_unique ex_store ex_store_reachable "emp-1" "2024-01-01").
Defined.

(** C2, as stated, fails: a reachable store holds two rows for the pair
    (NULL, 2024-01-01). *)
Lemma attendance_pair_duplicated_for_null :
  reachable null_pair_store
  /\ List.length (filter (fun a => match a_employee_id a with
                                   | None => String.eqb (a_date a) "2024-01-01"
                                   | Some _ => false
                                   end) (attendances null_pair_store)) = 2.
Proof.
  split; [unfold null_pair_store; apply reachable_step, reachable_step, reachable_init|].
  vm_compute. reflexivity.
Qed.

Lemma sql_select_outlet_inl (id : cell) (s s' : db) (l : list cell) :
  sql_select_outlet id s = (inl l, s') ->
  l = map e_outlet (filter (fun e => sql_eq (Some (e_id e)) id) (employees s)) /\ tables s' = tables s.
Proof.
  unfold sql_select_outlet. intros H.
  apply bind_inl in H as (u & s1 & E & H). apply issue_inl in E. subst s1.
  unfold bind, get, ret in H. injection H as <- <-. split; reflexivity.
Qed.

Lemma sql_select_attendance_of_inl (e d : cell) (s s' : db) (l : list attendance) :
  sql_select_attendance_of e d s = (inl l, s') ->
  l = filter (att_match e d) (attendances s) /\ tables s' = tables s.
Proof.
  unfold sql_select_attendance_of. intros H.
  apply bind_inl in H as (u & s1 & E & H). apply issue_inl in E. subst s1.
  unfold bind, get, ret in H. injection H as <- <-. split; reflexivity.
Qed.

Lemma sql_insert_attendance_inl (id employeeId date status outlet : cell) (s s' : db)
    (rows : list attendance) :
  sql_insert_attendance id employeeId date status outlet s = (inl rows, s') ->
  exists r, rows = [r]
    /\ attendances s' = (attendances s ++ [r])%list
    /\ employees s' = employees s /\ departments s' = departments s
    /\ Some (a_id r) = option_map (substring 0 255) id
    /\ a_employee_id r = option_map (substring 0 255) employeeId
    /\ Some (a_date r) = option_map (substring 0 255) date
    /\ Some (a_status r) = option_map (substring 0 50) status
    /\ a_outlet r = option_map (substring 0 255) outlet.
Proof.
  unfold sql_insert_attendance. intros H.
  apply bind_inl in H as (u & s1 & E & H). apply issue_inl in E.
  apply bind_inl in H as (c1 & s2 & E1 & H). apply coerce_varchar in E1 as [-> Hc1].
  apply bind_inl in H as (c2 & s3 & E2 & H). apply coerce_varchar in E2 as [-> ->].
  apply bind_inl in H as (c3 & s4 & E3 & H). apply coerce_varchar in E3 as [-> Hc3].
  apply bind_inl in H as (c4 & s5 & E4 & H). apply coerce_varchar in E4 as [-> Hc4].
  apply bind_inl in H as (c5 & s6 & E5 & H). apply coerce_varchar in E5 as [-> ->].
  apply bind_inl in H as (i & s7 & E6 & H). apply not_null_inl in E6 as [Hi ->].
  apply bind_inl in H as (d & s8 & E7 & H). apply not_null_inl in E7 as [Hd ->].
  apply bind_inl in H as (st & s9 & E8 & H). apply not_null_inl in E8 as [Hst ->].
  apply bind_inl in H as (s10 & s11 & E9 & H). unfold get in E9.
  injection E9 as <- <-.
  destruct (existsb (fun a => String.eqb (a_id a) i) (attendances s1)); [discriminate|].
  match type of H with
  | (if ?c then _ else _) _ = _ => destruct c; [discriminate|]
  end.
  unfold bind, modify, ret in H. injection H as <- <-. subst s1.
  eexists. split; [reflexivity|].
  split; [reflexivity|]. split; [reflexivity|]. split; [reflexivity|].
  rewrite <- Hc1, <- Hc3, <- Hc4, Hi, Hd, Hst. repeat split; reflexivity.
Qed.

Lemma js_string_of_param (v : jsval) (x : string) : to_param v = Some x -> js_string v = x.
Proof. destruct v; simpl; intros H; try discriminate H; injection H as H; exact H. Qed.

Lemma length_str_app (x y : string) : String.length (x ++ y) = String.length x + String.length y.
Proof. induction x as [|c x IH]; simpl; [reflexivity|rewrite IH; reflexivity]. Qed.

Lemma has_nul_str_app (x y : string) : has_nul (x ++ y) = has_nul x || has_nul y.
Proof. induction x as [|c x IH]; simpl; [reflexivity|rewrite IH, orb_assoc; reflexivity]. Qed.

Lemma all_spaces_get (x : string) (n : nat) (c : ascii) :
  all_spaces x = true -> String.get n x = Some c -> c = " "%char.
Proof.
  revert n. induction x as [|c' x IH]; intros n; simpl; [discriminate|].
  intros H. apply andb_prop in H as [Hc Hx]. destruct n as [|n]; simpl.
  - intros E. injection E as <-. apply Ascii.eqb_eq. exact Hc.
  - exact (IH n Hx).
Qed.

(** An attendance id [e-d] whose [e] part alone fills the 255 characters of
    the column cannot be cut back to 255 characters: the ["-"] is past the
    limit. *)
Lemma long_attendance_id (e d : string) :
  255 <= String.length e ->
  Nat.leb (String.length (e ++ "-" ++ d)) 255 = false
  /\ all_spaces (substring 255 (String.length (e ++ "-" ++ d) - 255) (e ++ "-" ++ d)) = false.
Proof.
  intros Hl. rewrite length_str_app. simpl String.length. split; [apply Nat.leb_gt; lia|].
  apply not_true_iff_false. intros H.
  assert (Hg : String.get (String.length e - 255)
                 (substring 255 (String.length e + S (String.length d) - 255) (e ++ "-" ++ d))
               = Some "-"%char).
  { rewrite substring_correct1 by lia.
    replace (String.length e - 255 + 255) with (0 + String.length e) by lia.
    rewrite <- append_correct2. reflexivity. }
  apply (all_spaces_get _ _ _ H) in Hg. discriminate Hg.
Qed.

Lemma sql_insert_attendance_fk (id employeeId date status outlet : cell) (s s' : db)
    (rows : list attendance) :
  sql_insert_attendance id employeeId date status outlet s = (inl rows, s') ->
  forall r x, In r rows -> a_employee_id r = Some x ->
  exists y, In y (employees s) /\ e_id y = x.
Proof.
  unfold sql_insert_attendance. intros H.
  apply bind_inl in H as (u & s1 & E & H). apply issue_inl in E.
  apply bind_inl in H as (c1 & s2 & E1 & H). apply coerce_varchar in E1 as [-> _].
  apply bind_inl in H as (c2 & s3 & E2 & H). apply coerce_varchar in E2 as [-> ->].
  apply bind_inl in H as (c3 & s4 & E3 & H). apply coerce_varchar in E3 as [-> _].
  apply bind_inl in H as (c4 & s5 & E4 & H). apply coerce_varchar in E4 as [-> _].
  apply bind_inl in H as (c5 & s6 & E5 & H). apply coerce_varchar in E5 as [-> _].
  apply bind_inl in H as (i & s7 & E6 & H). apply not_null_inl in E6 as [_ ->].
  apply bind_inl in H as (d & s8 & E7 & H). apply not_null_inl in E7 as [_ ->].
  apply bind_inl in H as (st & s9 & E8 & H). apply not_null_inl in E8 as [_ ->].
  apply bind_inl in H as (s10 & s11 & E9 & H). unfold get in E9.
  injection E9 as <- <-.
  destruct (existsb (fun a => String.eqb (a_id a) i) (attendances s1)); [discriminate|].
  subst s1. simpl employees in H.
  destruct (option_map (substring 0 255) employeeId) as [e|] eqn:Ee; cbv beta iota in H.
  - match type of H with
    | (if negb ?c then _ else _) _ = _ => destruct c eqn:Ex
    end; cbv [negb raise] in H; [|discriminate H].
    unfold bind, modify, ret in H. injection H as <- _.
    intros r x [<-|[]] Hx. simpl in Hx. injection Hx as <-.
    apply existsb_exists in Ex as (y & Hy & Hye).
    exists y. split; [exact Hy|apply String.eqb_eq; exact Hye].
  - unfold bind, modify, ret in H. injection H as <- _.
    intros r x [<-|[]] Hx. discriminate Hx.
Qed.

(** C7 (as amended): when the upsert names an [employeeId] that no employee
    row has, the outlet lookup finds no row, so the resolved outlet is
    [null]; the existence check finds no attendance row for it either (every
    stored [employee_id] names an employee).  The response is a 500 and no
    attendance row is recorded; when the date and status are given, fit their
    columns and hold no byte 0x00, and the id [employeeId-date] fits and is
    free, the refusal is the foreign key
    [attendance.employee_id REFERENCES employees(id)].  Only a request
    without an [employeeId] records a row with no matching employee, with a
    NULL [employee_id] and a NULL outlet. *)
Theorem upsert_unknown_employee_rejected :
  (forall (en : env) (b : obj) (s : db) (e : string),
     reachable s -> pool en = true -> to_param (field b "employeeId") = Some e ->
     (forall x, In x (employees s) -> e_id x <> e) ->
     (has_nul e = false -> fst (sql_select_outlet (Some e) s) = inl [])
     /\ (forall pd, has_nul e = false -> (forall x, pd = Some x -> has_nul x = false) ->
           fst (sql_select_attendance_of (Some e) pd s) = inl [])
     /\ (status (fst (serve en (PostAttendance b) s)) = 500%Z
         /\ attendances (snd (serve en (PostAttendance b) s)) = attendances s)
     /\ (forall d st, field b "date" = JStr d -> to_param (field b "status") = Some st ->
           has_nul e = false -> has_nul d = false -> has_nul st = false ->
           String.length (e ++ "-" ++ d) <= 255 -> String.length st <= 50 ->
           existsb (fun a => String.eqb (a_id a) (e ++ "-" ++ d)) (attendances s) = false ->
           fst (serve en (PostAttendance b) s)
           = mkResponse 500 (BException (ForeignKeyViolation "attendance_employee_id_fkey"))))
  /\ (forall (en : env) (b : obj) (s s' : db) (r : attendance),
        serve en (PostAttendance b) s = (mkResponse 201 (BAttendance r), s') ->
        (forall x, In x (employees s') -> a_employee_id r <> Some (e_id x)) ->
        to_param (field b "employeeId") = None /\ a_employee_id r = None /\ a_outlet r = None).
Proof.
  split.
  - intros en b s e Hr Hp Hpe Hno.
    destruct (reachable_att_inv s Hr) as [_ _ Hfk].
    assert (Hatt : forall pd, filter (att_match (Some e) pd) (attendances s) = []).
    { intros pd. apply filter_none. intros a Ha. unfold att_match.
      destruct (sql_eq (a_employee_id a) (Some e)) eqn:E; [|reflexivity].
      apply sql_eq_some in E. destruct (Hfk a e Ha E) as [x [Hx Hxe]].
      exfalso. exact (Hno x Hx Hxe). }
    assert (Hex : negb (existsb (fun x => String.eqb (e_id x) e) (employees s)) = true).
    { apply negb_true_iff, not_true_iff_false. intros H.
      apply existsb_exists in H as [x [Hx Hxe]]. apply String.eqb_eq in Hxe.
      exact (Hno x Hx Hxe). }
    pose proof (js_string_of_param _ _ Hpe) as Hjs.
    split.
    { intros Hn. unfold_m. simpl. rewrite Hn. simpl.
      rewrite filter_none; [reflexivity|].
      intros x Hx. apply String.eqb_neq. apply Hno. exact Hx. }
    split.
    { intros pd Hn Hpd. unfold_m. simpl. rewrite Hn. simpl.
      destruct pd as [x|]; [rewrite (Hpd x eq_refl)|]; simpl; rewrite Hatt; reflexivity. }
    split.
    + unfold serve, run, handler, post_attendance. rewrite Hp. simpl negb. cbv iota.
      unfold attendance_id. rewrite Hjs, Hpe.
      remember (js_string (field b "date")) as dj.
      remember (to_param (field b "date")) as pd.
      remember (to_param (field b "status")) as ps.
      destruct (Nat.leb (String.length e) 255) eqn:Hle.
      * remember (e ++ "-" ++ dj) as X.
        unfold_m. simpl.
        destruct (has_nul e) eqn:Hn; simpl; [split; reflexivity|].
        repeat (first [ rewrite Hatt | rewrite Hle
                      | match goal with
                        | |- context [if ?c then _ else _] => destruct c eqn:?
                        | |- context [match ?x with Some _ => _ | None => _ end] => destruct x eqn:?
                        | |- context [match ?x with [] => _ | _ :: _ => _ end] => destruct x eqn:?
                        end ]; simpl; try congruence).
        all: split; reflexivity.
      * apply Nat.leb_gt in Hle.
        destruct (long_attendance_id e dj ltac:(lia)) as [Hl1 Hl2].
        remember (e ++ "-" ++ dj) as X.
        unfold_m. simpl.
        destruct (has_nul e) eqn:Hn; simpl; [split; reflexivity|].
        repeat (first [ rewrite Hatt | rewrite Hl1 | rewrite Hl2
                      | match goal with
                        | |- context [if ?c then _ else _] => destruct c eqn:?
                        | |- context [match ?x with Some _ => _ | None => _ end] => destruct x eqn:?
                        | |- context [match ?x with [] => _ | _ :: _ => _ end] => destruct x eqn:?
                        end ]; simpl; try congruence).
        all: split; reflexivity.
    + intros d st Hd Hst Hne Hnd Hnst Hlen Hlst Hfree.
      unfold serve, run, handler, post_attendance. rewrite Hp. simpl negb. cbv iota.
      unfold attendance_id. rewrite Hjs, Hpe, Hd, Hst. simpl js_string. simpl to_param.
      assert (Hle : Nat.leb (String.length e) 255 = true).
      { apply Nat.leb_le. rewrite length_str_app in Hlen. lia. }
      assert (Hld : Nat.leb (String.length d) 255 = true).
      { apply Nat.leb_le. rewrite !length_str_app in Hlen. simpl in Hlen. lia. }
      assert (Hls : Nat.leb (String.length st) 50 = true) by (apply Nat.leb_le; exact Hlst).
      assert (HnX : has_nul (e ++ "-" ++ d) = false).
      { rewrite !has_nul_str_app, Hne, Hnd. reflexivity. }
      assert (HlX : Nat.leb (String.length (e ++ "-" ++ d)) 255 = true) by (apply Nat.leb_le; exact Hlen).
      assert (Hemp : filter (fun x => String.eqb (e_id x) e) (employees s) = []).
      { apply filter_none. intros x Hx. apply String.eqb_neq. apply Hno. exact Hx. }
      simpl in HnX, HlX, Hfree.
      unfold_m. simpl.
      repeat (first [ rewrite Hatt | rewrite Hemp | rewrite HnX | rewrite Hne | rewrite Hnd
                    | rewrite Hnst | rewrite HlX | rewrite Hle | rewrite Hld | rewrite Hls
                    | rewrite Hfree | rewrite Hex
                    | match goal with
                      | |- context [if ?c then _ else _] => destruct c eqn:?
                      | |- context [match ?x with Some _ => _ | None => _ end] => destruct x eqn:?
                      | |- context [match ?x with [] => _ | _ :: _ => _ end] => destruct x eqn:?
                      end ]; simpl; try congruence).
  - intros en b s s' r H Hnm.
    unfold serve, run, handler, post_attendance in H.
    destruct (pool en) eqn:Hp; [|discriminate H]. simpl negb in H. cbv iota in H.
    match type of H with
    | match ?m s with _ => _ end = _ => destruct (m s) as [[resp|ex] s1] eqn:E
    end; [|discriminate H].
    injection H as -> ->.
    apply bind_inl in E as (outs & s2 & E & Hk).
    apply sql_select_outlet_inl in E as [-> Ht2].
    apply bind_inl in Hk as (exs & s3 & E & Hk).
    apply sql_select_attendance_of_inl in E as [-> Ht3].
    apply bind_inl in Hk as (rows & s4 & E & Hk).
    destruct (Nat.ltb 0 (List.length (filter _ (attendances s2)))) eqn:Hx.
    + destruct rows as [|r0 rows]; [discriminate Hk|]. discriminate Hk.
    + pose proof (sql_insert_attendance_fk _ _ _ _ _ _ _ _ E) as Hfk.
      apply sql_insert_attendance_inl in E
        as (r0 & -> & Ha & He & Hd & Hid & Heid & Hdate & Hst & Hou).
      unfold ret in Hk. injection Hk as Hr <-. subst r.
      destruct (a_employee_id r0) as [x|] eqn:Hax.
      * exfalso. destruct (Hfk r0 x (or_introl eq_refl) Hax) as (y & Hy & <-).
        apply (Hnm y); [rewrite He; exact Hy|reflexivity].
      * destruct (to_param (field b "employeeId")) as [pe|] eqn:Hpe; [discriminate Heid|].
        split; [reflexivity|]. split; [reflexivity|].
        rewrite Hou, filter_none; [reflexivity|]. intros x _. reflexivity.
Qed.

Lemma upsert_unknown_employee_rejected_witness :
  fst (serve ex_env ex_unknown_upsert ex_store)
  = mkResponse 500 (BException (ForeignKeyViolation "attendance_employee_id_fkey"))
  /\ status (fst (serve ex_env ex_unknown_upsert ex_store)) = 500%Z
  /\ attendances (snd (serve ex_env ex_unknown_upsert ex_store)) = attendances ex_store
  /\ a_outlet (mkAttendance "undefined-2024-01-01" None "2024-01-01" "present" None) = None.
Proof.
  destruct (proj1 upsert_unknown_employee_rejected ex_env
              [("employeeId", JStr "nope"); ("date", JStr "2024-01-01"); ("status", JStr "present")]
              ex_store "nope" ex_store_reachable eq_refl eq_refl)
    as (_ & _ & [H1 H2] & H3).
  { vm_compute. intros x [Hx|[]]. subst x. discriminate. }
  split; [apply (H3 "2024-01-01" "present"); vm_compute; reflexivity || lia|].
  split; [exact H1|]. split; [exact H2|].
  assert (H : serve ex_env ex_anonymous_upsert ex_store
              = (mkResponse 201 (BAttendance (mkAttendance "undefined-2024-01-01" None "2024-01-01"
                                                "present" None)),
                 snd (serve ex_env ex_anonymous_upsert ex_store))) by (vm_compute; reflexivity).
  refine (proj2 (proj2 (proj2 upsert_unknown_employee_rejected _ _ _ _ _ H _))).
  intros x _. discriminate.
Defined.

(** C7, as stated, fails: in a reachable store holding only the employee
    [emp-1], the upsert for [nope] is answered with the foreign-key error
    and records nothing. *)
Lemma upsert_unknown_employee_not_recorded :
  reachable ex_store
  /\ fst (serve ex_env ex_unknown_upsert ex_store)
     = mkResponse 500 (BException (ForeignKeyViolation "attendance_employee_id_fkey"))
  /\ attendances (snd (serve ex_env ex_unknown_upsert ex_store)) = attendances ex_store.
Proof.
  split; [exact ex_store_reachable|]. vm_compute. split; reflexivity.
Qed.

Section Upsert.

#[local] Arguments att_match : simpl never.

(** C1 (as amended): take an upsert whose [employeeId] and [date] are given
    and not [null] (at most 255 characters each) and whose [status] is at
    most 50 characters.  If the first call answers 201 (no row existed and
    the insert went through), then the same call made again answers 200, and
    afterwards exactly one row exists for the pair, with the supplied
    status. *)
Theorem upsert_repeat_updates (en : env) (b : obj) (s s1 : db) (e d st : string) (r : attendance) :
  to_param (field b "employeeId") = Some e ->
  to_param (field b "date") = Some d ->
  to_param (field b "status") = Some st ->
  String.length e <= 255 -> String.length d <= 255 -> String.length st <= 50 ->
  serve en (PostAttendance b) s = (mkResponse 201 (BAttendance r), s1) ->
  status (fst (serve en (PostAttendance b) s1)) = 200%Z
  /\ exists a, filter (att_match (Some e) (Some d)) (attendances (snd (serve en (PostAttendance b) s1))) = [a]
               /\ a_status a = st.
Proof.
  intros He Hd Hs Hle Hld Hls H1.
  apply Nat.leb_le in Hle, Hld, Hls.
  unfold serve, run, handler, post_attendance in *.
  destruct (pool en); [|simpl in H1; discriminate H1].
  simpl negb in *. cbv iota in *.
  rewrite He, Hd, Hs in *.
  revert H1. unfold_m. intros H1. simpl in H1.
  repeat (match type of H1 with
          | context [if ?c then _ else _] => destruct c eqn:?
          | context [match ?x with Some _ => _ | None => _ end] => destruct x eqn:?
          | context [match ?x with [] => _ | _ :: _ => _ end] => destruct x eqn:?
          end; simpl in H1; try discriminate H1; try congruence).
  all: injection H1 as _ Hs1; subst s1.
  all: apply filter_nil_of_ltb in Heqb2.
  all: repeat rewrite orb_false_iff in Heqb3.
  all: destruct Heqb3 as [_ [Hne [Hnd [Hns _]]]].
  all: simpl; rewrite ?Hne, ?Hnd, ?Hns; simpl.
  all: rewrite filter_snoc_one by (exact Heqb2 || apply att_match_row); simpl.
  all: rewrite existsb_snoc by apply att_match_row; simpl.
  all: rewrite map_app, map_if_none by exact Heqb2; cbn [map]; rewrite att_match_row.
  all: rewrite filter_snoc_one by (exact Heqb2 || (unfold set_status; apply att_match_row)).
  all: cbn [fst snd status attendances].
  all: rewrite filter_snoc_one by (exact Heqb2 || (unfold set_status; apply att_match_row)).
  all: split; [reflexivity|eexists; split; reflexivity].
Qed.

End Upsert.

Lemma upsert_repeat_updates_witness :
  status (fst (serve ex_env (ex_upsert "present") ex_store)) = 200%Z
  /\ exists a, filter (att_match (Some "emp-1") (Some "2024-01-01"))
                      (attendances (snd (serve ex_env (ex_upsert "present") ex_store))) = [a]
               /\ a_status a = "present".
Proof.
  apply (upsert_repeat_updates ex_env
           [("employeeId", JStr "emp-1"); ("date", JStr "2024-01-01"); ("status", JStr "present")]
           (snd (serve ex_env (PostEmployees [("name", JStr "Ann"); ("outlet", JStr "North")])
                   init_db))
           ex_store "emp-1" "2024-01-01" "present"
           (mkAttendance "emp-1-2024-01-01" (Some "emp-1") "2024-01-01" "present" (Some "North"))).
  - reflexivity.
  - reflexivity.
  - reflexivity.
  - simpl. lia.
  - simpl. lia.
  - simpl. lia.
  - vm_compute. reflexivity.
Defined.

(** C1, as stated, fails: from the fresh tables, an upsert without
    [employeeId] answers 201 and stores a row whose [employee_id] is NULL;
    the same call again does not find it ([employee_id = NULL] never holds),
    inserts the same id [undefined-2024-01-01] and answers 500. *)
Lemma upsert_repeat_without_employee_fails :
  status (fst (serve ex_env ex_anonymous_upsert init_db)) = 201%Z
  /\ fst (serve ex_env ex_anonymous_upsert (snd (serve ex_env ex_anonymous_upsert init_db)))
     = mkResponse 500 (BException (UniqueViolation "attendance_pkey")).
Proof. vm_compute. split; reflexivity. Qed.

(** C3 (as amended): when creating an employee answers 201 with the row
    [r], an omitted [email], [address] or [department] is stored as the empty
    string, while an omitted [phone] or [outlet] is stored as NULL; the
    listing that follows holds the earlier rows and [r], in no particular
    order, and [r]'s id occurs once in it.  Likewise for a department: an
    omitted [description] is stored as the empty string, an omitted [outlet]
    as NULL. *)
Theorem create_defaults_and_listing :
  (forall en b s s' r,
     serve en (PostEmployees b) s = (mkResponse 201 (BEmployee r), s') ->
     (field b "email" = JUndefined -> e_email r = Some "")
     /\ (field b "address" = JUndefined -> e_address r = Some "")
     /\ (field b "department" = JUndefined -> e_department r = Some "")
     /\ (field b "phone" = JUndefined -> e_phone r = None)
     /\ (field b "outlet" = JUndefined -> e_outlet r = None)
     /\ exists l, fst (serve en GetEmployees s') = mkResponse 200 (BEmployees l)
          /\ Permutation l (employees s ++ [r])
          /\ filter (fun x => String.eqb (e_id x) (e_id r)) l = [r])
  /\ (forall en b s s' r,
     serve en (PostDepartments b) s = (mkResponse 201 (BDepartment r), s') ->
     (field b "description" = JUndefined -> d_description r = Some "")
     /\ (field b "outlet" = JUndefined -> d_outlet r = None)
     /\ exists l, fst (serve en GetDepartments s') = mkResponse 200 (BDepartments l)
          /\ Permutation l (departments s ++ [r])
          /\ filter (fun x => String.eqb (d_id x) (d_id r)) l = [r]).
Proof.
  split.
  - intros en b s s' r H.
    unfold serve, run, handler, post_employees in H.
    destruct (pool en) eqn:Hp; [|discriminate H]. simpl negb in H. cbv iota in H.
    match type of H with
    | match ?m s with _ => _ end = _ => destruct (m s) as [[resp|ex] s1] eqn:E
    end; [|discriminate H].
    injection H as -> ->.
    apply bind_inl in E as (rows & s2 & E & Hk).
    apply sql_insert_employee_inl in E
      as (r0 & -> & Hemp & _ & _ & Hnew & Hem & Hph & Had & Hde & Hou).
    unfold ret in Hk. injection Hk as Hr <-. subst r.
    repeat split.
    + intros Hu. rewrite Hem, Hu. reflexivity.
    + intros Hu. rewrite Had, Hu. reflexivity.
    + intros Hu. rewrite Hde, Hu. reflexivity.
    + intros Hu. rewrite Hph, Hu. reflexivity.
    + intros Hu. rewrite Hou, Hu. reflexivity.
    + rewrite <- Hemp. eexists. split.
      { unfold serve, run, handler, get_employees. rewrite Hp. unfold_m. simpl. reflexivity. }
      split; [rewrite Hemp; apply Permutation_refl|].
      rewrite Hemp. apply filter_snoc_one.
      * apply existsb_false_filter. exact Hnew.
      * apply String.eqb_refl.
  - intros en b s s' r H.
    unfold serve, run, handler, post_departments in H.
    destruct (pool en) eqn:Hp; [|discriminate H]. simpl negb in H. cbv iota in H.
    match type of H with
    | match ?m s with _ => _ end = _ => destruct (m s) as [[resp|ex] s1] eqn:E
    end; [|discriminate H].
    injection H as -> ->.
    apply bind_inl in E as (rows & s2 & E & Hk).
    apply sql_insert_department_inl in E as (r0 & -> & Hdep & _ & _ & Hnew & Hds & Hou).
    unfold ret in Hk. injection Hk as Hr <-. subst r.
    repeat split.
    + intros Hu. rewrite Hds, Hu. reflexivity.
    + intros Hu. rewrite Hou, Hu. reflexivity.
    + rewrite <- Hdep. eexists. split.
      { unfold serve, run, handler, get_departments. rewrite Hp. unfold_m. simpl. reflexivity. }
      split; [rewrite Hdep; apply Permutation_refl|].
      rewrite Hdep. apply filter_snoc_one.
      * apply existsb_false_filter. exact Hnew.
      * apply String.eqb_refl.
Qed.

Lemma create_defaults_and_listing_witness :
  serve ex_env (PostEmployees ex_ann) init_db
  = (mkResponse 201 (BEmployee ex_ann_row), snd (serve ex_env (PostEmployees ex_ann) init_db))
  /\ (field ex_ann "email" = JUndefined -> e_email ex_ann_row = Some "")
  /\ exists l, fst (serve ex_env GetEmployees (snd (serve ex_env (PostEmployees ex_ann) init_db)))
       = mkResponse 200 (BEmployees l)
       /\ Permutation l ([] ++ [ex_ann_row])
       /\ filter (fun x => String.eqb (e_id x) (e_id ex_ann_row)) l = [ex_ann_row].
Proof.
  assert (H : serve ex_env (PostEmployees ex_ann) init_db
              = (mkResponse 201 (BEmployee ex_ann_row),
                 snd (serve ex_env (PostEmployees ex_ann) init_db)))
    by (vm_compute; reflexivity).
  destruct (proj1 create_defaults_and_listing _ _ _ _ _ H) as (Hem & _ & _ & _ & _ & Hget).
  split; [exact H|]. split; [exact Hem|]. exact Hget.
Defined.

(** C3, as stated, fails: an employee created with only a name gets NULL,
    not the empty string, as [phone] and [outlet], and a department created
    with only a name gets NULL as [outlet]. *)
Lemma create_omitted_phone_outlet_null :
  fst (serve ex_env (PostEmployees ex_ann) init_db) = mkResponse 201 (BEmployee ex_ann_row)
  /\ e_phone ex_ann_row = None /\ e_outlet ex_ann_row = None
  /\ fst (serve ex_env (PostDepartments [("name", JStr "Sales")]) init_db)
     = mkResponse 201 (BDepartment (mkDepartment "dept-1" "Sales" (Some "") None)).
Proof. vm_compute. repeat split. Qed.

(** C4 (as amended): a create request without [name] is not validated by the
    handler.  With a pool it reaches the store, which refuses the row
    (with the NOT NULL constraint on [name], or an earlier store error); the
    answer is a 500 carrying that store error, and no table changes.
    Without a pool it is the 503 of every handler. *)
Theorem create_without_name_store_error :
  (forall en b s, field b "name" = JUndefined ->
     (pool en = true -> exists ex, fst (serve en (PostEmployees b) s) = mkResponse 500 (BException ex))
     /\ (pool en = false -> fst (serve en (PostEmployees b) s) = unavailable)
     /\ tables (snd (serve en (PostEmployees b) s)) = tables s)
  /\ (forall en b s, field b "name" = JUndefined ->
     (pool en = true -> exists ex, fst (serve en (PostDepartments b) s) = mkResponse 500 (BException ex))
     /\ (pool en = false -> fst (serve en (PostDepartments b) s) = unavailable)
     /\ tables (snd (serve en (PostDepartments b) s)) = tables s).
Proof.
  split.
  - intros en b s Hn. unfold serve, handler, post_employees.
    destruct (pool en); simpl negb; cbv iota.
    + rewrite Hn. simpl to_param.
      match goal with
      | |- context [run (bind ?m ?k) s] =>
          destruct (fails_keeping_run m k s (sql_insert_employee_no_name _ _ _ _ _ _ s))
            as (ex & Hr & Ht)
      end.
      rewrite Hr. simpl. split; [eauto|]. split; [discriminate|exact Ht].
    + split; [discriminate|]. split; reflexivity.
  - intros en b s Hn. unfold serve, handler, post_departments.
    destruct (pool en); simpl negb; cbv iota.
    + rewrite Hn. simpl to_param.
      match goal with
      | |- context [run (bind ?m ?k) s] =>
          destruct (fails_keeping_run m k s (sql_insert_department_no_name _ _ _ s))
            as (ex & Hr & Ht)
      end.
      rewrite Hr. simpl. split; [eauto|]. split; [discriminate|exact Ht].
    + split; [discriminate|]. split; reflexivity.
Qed.

Lemma create_without_name_store_error_witness :
  (exists ex, fst (serve ex_env (PostEmployees [("email", JStr "a@b.c")]) init_db)
              = mkResponse 500 (BException ex))
  /\ tables (snd (serve ex_env (PostEmployees [("email", JStr "a@b.c")]) init_db)) = tables init_db.
Proof.
  destruct (proj1 create_without_name_store_error ex_env [("email", JStr "a@b.c")] init_db eq_refl)
    as (H1 & _ & H3).
  split; [apply H1; reflexivity|exact H3].
Defined.

(** C4, as stated, fails: creating an employee or a department without a
    name is answered with 500 and the store's NOT NULL error, not with a
    4xx validation error. *)
Lemma create_without_name_is_500 :
  fst (serve ex_env (PostEmployees [("email", JStr "a@b.c")]) init_db)
  = mkResponse 500 (BException (NotNullViolation "name"))
  /\ fst (serve ex_env (PostDepartments [("description", JStr "x")]) init_db)
     = mkResponse 500 (BException (NotNullViolation "name")).
Proof. vm_compute. split; reflexivity. Qed.

(** ** Further properties of the handlers *)

Lemma snd_bind_ret_k {A} (m : M A) (k : A -> M response) (s : db) :
  (forall a s1, snd (k a s1) = s1) -> snd (bind m k s) = snd (m s).
Proof. intros Hk. unfold bind. destruct (m s) as [[a|e] s1]; [apply Hk|reflexivity]. Qed.

Lemma sql_update_employee_state (q : string) (sets : list (string * cell)) (id : cell) (s : db) :
  departments (snd (sql_update_employee q sets id s)) = departments s
  /\ attendances (snd (sql_update_employee q sets id s)) = attendances s
  /\ map e_id (employees (snd (sql_update_employee q sets id s))) = map e_id (employees s).
Proof.
  unfold sql_update_employee. cbv [bind get modify ret].
  pose proof (issue_state q (map snd sets ++ [id]) s) as Hi.
  destruct (issue q (map snd sets ++ [id]) s) as [[[]|ex] s1]; simpl in Hi; subst s1;
    [|repeat split; reflexivity].
  match goal with
  | |- context [coerce_sets ?x ?y] =>
      pose proof (coerce_sets_state x y) as Hc;
      destruct (coerce_sets x y) as [[sets'|ex] s2]; simpl in Hc; subst s2
  end; [|repeat split; reflexivity].
  match goal with
  | |- context [update_rows ?a ?b ?c ?d] =>
      destruct (update_rows a b c d) as [r s3] eqn:E;
      apply update_rows_spec in E as [-> Hl]; destruct r as [l|ex]
  end; simpl; [|repeat split; reflexivity].
  split; [reflexivity|]. split; [reflexivity|]. apply Hl. reflexivity.
Qed.

Lemma update_rows_nomatch (sets : list (string * cell)) (id : string) (l : list employee) (s : db) :
  (forall e, In e l -> e_id e <> id) -> update_rows sets (Some id) l s = (inl l, s).
Proof.
  induction l as [|e l IH]; intros H; [reflexivity|].
  simpl update_rows. unfold bind. rewrite IH by (intros x Hx; apply H; right; exact Hx).
  simpl. replace (e_id e =? id)%string with false; [reflexivity|].
  symmetry. apply String.eqb_neq. apply H. left. reflexivity.
Qed.

Lemma update_rows_others (sets : list (string * cell)) (id : string) (l l' : list employee)
    (s s' : db) :
  update_rows sets (Some id) l s = (inl l', s') ->
  filter (fun e => negb (String.eqb (e_id e) id)) l'
  = filter (fun e => negb (String.eqb (e_id e) id)) l.
Proof.
  revert l' s'. induction l as [|e l IH]; intros l' s'; simpl update_rows; unfold bind, ret, raise.
  - intros H. injection H as <- _. reflexivity.
  - destruct (update_rows sets (Some id) l s) as [[rest|ex] s1] eqn:E; [|discriminate].
    specialize (IH _ _ eq_refl). simpl.
    destruct (e_id e =? id)%string eqn:Eq.
    + destruct (set_employee_columns e sets) as [e'|] eqn:Ee; [|discriminate].
      intros H. injection H as <- _. simpl.
      rewrite (set_employee_columns_id _ _ _ Ee), Eq. exact IH.
    + intros H. injection H as <- _. simpl. rewrite Eq. simpl. f_equal. exact IH.
Qed.

(** PATCH builds its SET list from the six columns in order, keeping those
    present in the body (a [null] value counts as present): the [i]-th item
    is [column = $i] for the [i]-th kept column, its value is that column's
    body value, and the index left for [WHERE id = $k] is one past the last
    value, so the id is the last parameter. *)
Theorem build_update_placeholders (cols : list string) (b : obj) (n : nat) :
  let '(fs, vs, k) := build_update cols b n in
  map fst vs = filter (fun c => negb (is_undefined (field b c))) cols
  /\ fs = placeholders n (map fst vs)
  /\ k = n + List.length vs
  /\ (forall c v, In (c, v) vs -> v = field b c /\ v <> JUndefined).
Proof.
  revert n. induction cols as [|c cols IH]; intros n; simpl.
  - repeat split; try lia; intros c v [].
  - destruct (is_undefined (field b c)) eqn:Hu; simpl.
    + exact (IH n).
    + specialize (IH (S n)).
      destruct (build_update cols b (S n)) as [[fs vs] k].
      destruct IH as (H1 & H2 & H3 & H4). simpl.
      rewrite H1. split; [reflexivity|].
      rewrite <- H1, H2. split; [reflexivity|]. split; [lia|].
      intros c' v' [Hcv|Hin]; [|exact (H4 c' v' Hin)].
      injection Hcv as <- <-. split; [reflexivity|].
      intros Hv. rewrite Hv in Hu. discriminate.
Qed.

Lemma build_update_placeholders_witness :
  build_update patch_columns [("phone", JStr "555"); ("name", JNull)] 1
  = (["name = $1"; "phone = $2"], [("name", JNull); ("phone", JStr "555")], 3)
  /\ (let '(fs, vs, k) := build_update patch_columns [("phone", JStr "555"); ("name", JNull)] 1 in
      map fst vs = filter (fun c => negb (is_undefined (field [("phone", JStr "555"); ("name", JNull)] c)))
                     patch_columns
      /\ fs = placeholders 1 (map fst vs)
      /\ k = 1 + List.length vs
      /\ (forall c v, In (c, v) vs -> v = field [("phone", JStr "555"); ("name", JNull)] c
                                      /\ v <> JUndefined)).
Proof.
  split; [reflexivity|].
  exact (build_update_placeholders patch_columns [("phone", JStr "555"); ("name", JNull)] 1).
Defined.

(** A PATCH never adds or removes employees, never changes an employee's id,
    and never touches the departments or attendance tables, whatever it
    answers. *)
Theorem patch_keeps_ids_and_other_tables (en : env) (id : string) (b : obj) (s : db) :
  map e_id (employees (snd (serve en (PatchEmployee id b) s))) = map e_id (employees s)
  /\ departments (snd (serve en (PatchEmployee id b) s)) = departments s
  /\ attendances (snd (serve en (PatchEmployee id b) s)) = attendances s.
Proof.
  unfold serve. rewrite snd_run. unfold handler, patch_employee.
  destruct (pool en); [|repeat split; reflexivity]. cbv beta iota delta [negb].
  destruct (build_update patch_columns b 1) as [[fs vs] k].
  destruct (Nat.eqb (List.length fs) 0); [repeat split; reflexivity|].
  rewrite snd_bind_ret_k by (intros [|r rows] s1; reflexivity).
  destruct (sql_update_employee_state
              ("UPDATE employees SET " ++ join ", " fs ++ " WHERE id = $" ++ string_of_nat k
               ++ " RETURNING *") (map (fun cv => (fst cv, to_param (snd cv))) vs) (Some id) s)
    as (H1 & H2 & H3).
  repeat split; assumption.
Qed.

(** A PATCH for an id that no employee has never answers 200 and leaves
    every table as it was. *)
Theorem patch_unknown_employee_keeps_tables (en : env) (id : string) (b : obj) (s : db) :
  (forall e, In e (employees s) -> e_id e <> id) ->
  status (fst (serve en (PatchEmployee id b) s)) <> 200%Z
  /\ tables (snd (serve en (PatchEmployee id b) s)) = tables s.
Proof.
  intros Hno. unfold serve, run, handler, patch_employee.
  destruct (pool en); [|simpl; split; [discriminate|reflexivity]]. cbv beta iota delta [negb].
  destruct (build_update patch_columns b 1) as [[fs vs] k].
  destruct (Nat.eqb (List.length fs) 0); [simpl; split; [discriminate|reflexivity]|].
  unfold sql_update_employee. cbv [bind get modify ret].
  match goal with
  | |- context [issue ?q ?ps s] =>
      pose proof (issue_state q ps s) as Hi;
      destruct (issue q ps s) as [[[]|ex] s1]; simpl in Hi; subst s1
  end; [|simpl; split; [discriminate|reflexivity]].
  match goal with
  | |- context [coerce_sets ?x ?y] =>
      pose proof (coerce_sets_state x y) as Hc;
      destruct (coerce_sets x y) as [[sets'|ex] s2]; simpl in Hc; subst s2
  end; [|simpl; split; [discriminate|reflexivity]].
  simpl. rewrite update_rows_nomatch by exact Hno.
  rewrite filter_none.
  - simpl. split; [discriminate|reflexivity].
  - intros x Hx. simpl. apply String.eqb_neq. apply Hno. exact Hx.
Qed.

Lemma patch_unknown_employee_keeps_tables_witness :
  status (fst (serve ex_env (PatchEmployee "emp-9" [("name", JStr "Bo")]) ex_store)) <> 200%Z
  /\ tables (snd (serve ex_env (PatchEmployee "emp-9" [("name", JStr "Bo")]) ex_store))
     = tables ex_store.
Proof.
  apply patch_unknown_employee_keeps_tables.
  vm_compute. intros x [Hx|[]]. subst x. discriminate.
Defined.

(** When a PATCH answers 200, the row it returns is the stored row with the
    requested id, and every employee with another id is left exactly as it
    was (same rows, same order). *)
Theorem patch_updates_only_target (en : env) (id : string) (b : obj) (s : db) (r : employee) :
  fst (serve en (PatchEmployee id b) s) = mkResponse 200 (BEmployee r) ->
  e_id r = id
  /\ In r (employees (snd (serve en (PatchEmployee id b) s)))
  /\ filter (fun e => negb (String.eqb (e_id e) id)) (employees (snd (serve en (PatchEmployee id b) s)))
     = filter (fun e => negb (String.eqb (e_id e) id)) (employees s).
Proof.
  unfold serve, run, handler, patch_employee.
  destruct (pool en); [|simpl; discriminate]. cbv beta iota delta [negb].
  destruct (build_update patch_columns b 1) as [[fs vs] k].
  destruct (Nat.eqb (List.length fs) 0); [simpl; discriminate|].
  unfold sql_update_employee. cbv [bind get modify ret].
  match goal with
  | |- context [issue ?q ?ps s] =>
      pose proof (issue_state q ps s) as Hi;
      destruct (issue q ps s) as [[[]|ex] s1]; simpl in Hi; subst s1
  end; [|simpl; discriminate].
  match goal with
  | |- context [coerce_sets ?x ?y] =>
      pose proof (coerce_sets_state x y) as Hc;
      destruct (coerce_sets x y) as [[sets'|ex] s2]; simpl in Hc; subst s2
  end; [|simpl; discriminate].
  simpl.
  match goal with
  | |- context [update_rows ?a ?b ?c ?d] =>
      destruct (update_rows a b c d) as [[l|ex] s3] eqn:E
  end; [|simpl; discriminate].
  pose proof (update_rows_others _ _ _ _ _ _ E) as Hothers.
  destruct (filter (fun e => (e_id e =? id)%string) l) as [|r0 rows] eqn:Ef; [simpl; discriminate|].
  simpl. intros H. injection H as <-.
  assert (Hin : In r0 (filter (fun e => (e_id e =? id)%string) l)) by (rewrite Ef; left; reflexivity).
  apply filter_In in Hin as [Hin Hid]. apply String.eqb_eq in Hid.
  split; [exact Hid|]. split; [exact Hin|]. exact Hothers.
Qed.

Lemma patch_updates_only_target_witness :
  e_id (mkEmployee "emp-1" "Bo" (Some "") None (Some "") (Some "") (Some "North")) = "emp-1"
  /\ In (mkEmployee "emp-1" "Bo" (Some "") None (Some "") (Some "") (Some "North"))
        (employees (snd (serve ex_env (PatchEmployee "emp-1" [("name", JStr "Bo")]) ex_store)))
  /\ filter (fun e => negb (String.eqb (e_id e) "emp-1"))
        (employees (snd (serve ex_env (PatchEmployee "emp-1" [("name", JStr "Bo")]) ex_store)))
     = filter (fun e => negb (String.eqb (e_id e) "emp-1")) (employees ex_store).
Proof.
  apply patch_updates_only_target. vm_compute. reflexivity.
Defined.

Lemma existsb_as_filter {A} (p : A -> bool) (l : list A) :
  existsb p l = match filter p l with [] => false | _ :: _ => true end.
Proof. induction l as [|x l IH]; simpl; [reflexivity|]. destruct (p x); [reflexivity|exact IH]. Qed.

Lemma filter_all {A} (p : A -> bool) (l : list A) :
  (forall x, In x l -> p x = true) -> filter p l = l.
Proof.
  induction l as [|x l IH]; simpl; intros H; [reflexivity|].
  rewrite (H x (or_introl eq_refl)), IH; [reflexivity|]. intros y Hy. apply H. right. exact Hy.
Qed.

Section Deletes.

#[local] Arguments sql_eq : simpl never.
#[local] Arguments att_match : simpl never.

Lemma cascade_after_explicit_delete (atts : list attendance) (gone : list employee) (id : string) :
  (forall e, In e gone -> e_id e = id) ->
  filter (fun a => negb (existsb (fun e => sql_eq (a_employee_id a) (Some (e_id e))) gone))
    (filter (fun a => negb (sql_eq (a_employee_id a) (Some id))) atts)
  = filter (fun a => negb (sql_eq (a_employee_id a) (Some id))) atts.
Proof.
  intros Hgone. apply filter_all. intros a Ha. apply filter_In in Ha as [_ Ha].
  apply negb_true_iff in Ha. apply negb_true_iff, not_true_iff_false. intros Hex.
  apply existsb_exists in Hex as [e [He Hm]]. rewrite (Hgone e He) in Hm. congruence.
Qed.

Lemma delete_employee_run (en : env) (id : string) (s : db) :
  pool en = true -> has_nul id = false ->
  status (fst (serve en (DeleteEmployee id) s))
  = (if existsb (fun e => String.eqb (e_id e) id) (employees s) then 200 else 404)%Z
  /\ employees (snd (serve en (DeleteEmployee id) s))
     = filter (fun e => negb (String.eqb (e_id e) id)) (employees s)
  /\ attendances (snd (serve en (DeleteEmployee id) s))
     = filter (fun a => negb (sql_eq (a_employee_id a) (Some id))) (attendances s)
  /\ departments (snd (serve en (DeleteEmployee id) s)) = departments s.
Proof.
  intros Hp Hn. unfold serve, run, handler, delete_employee. rewrite Hp.
  unfold_m. simpl. rewrite Hn. simpl.
  rewrite cascade_after_explicit_delete.
  2: { intros e He. apply filter_In in He as [_ He]. unfold sql_eq in He.
       apply String.eqb_eq in He. exact He. }
  change (fun e => sql_eq (Some (e_id e)) (Some id)) with (fun e => String.eqb (e_id e) id).
  rewrite existsb_as_filter.
  destruct (filter (fun e => String.eqb (e_id e) id) (employees s)); simpl;
    repeat split; reflexivity.
Qed.

Lemma delete_department_run (en : env) (id : string) (s : db) :
  pool en = true -> has_nul id = false ->
  status (fst (serve en (DeleteDepartment id) s))
  = (if existsb (fun d => String.eqb (d_id d) id) (departments s) then 200 else 404)%Z
  /\ departments (snd (serve en (DeleteDepartment id) s))
     = filter (fun d => negb (String.eqb (d_id d) id)) (departments s)
  /\ employees (snd (serve en (DeleteDepartment id) s)) = employees s
  /\ attendances (snd (serve en (DeleteDepartment id) s)) = attendances s.
Proof.
  intros Hp Hn. unfold serve, run, handler, delete_department. rewrite Hp.
  unfold_m. simpl. rewrite Hn. simpl.
  change (fun d => sql_eq (Some (d_id d)) (Some id)) with (fun d => String.eqb (d_id d) id).
  rewrite existsb_as_filter.
  destruct (filter (fun d => String.eqb (d_id d) id) (departments s)); simpl;
    repeat split; reflexivity.
Qed.

Lemma delete_attendance_run (en : env) (e d : string) (s : db) :
  pool en = true -> has_nul e = false -> has_nul d = false ->
  status (fst (serve en (DeleteAttendance e d) s))
  = (if existsb (att_match (Some e) (Some d)) (attendances s) then 200 else 404)%Z
  /\ attendances (snd (serve en (DeleteAttendance e d) s))
     = filter (fun a => negb (att_match (Some e) (Some d) a)) (attendances s)
  /\ employees (snd (serve en (DeleteAttendance e d) s)) = employees s
  /\ departments (snd (serve en (DeleteAttendance e d) s)) = departments s.
Proof.
  intros Hp He Hd. unfold serve, run, handler, delete_attendance. rewrite Hp.
  unfold_m. simpl. rewrite He, Hd. simpl.
  rewrite existsb_as_filter.
  destruct (filter (att_match (Some e) (Some d)) (attendances s)); simpl;
    repeat split; reflexivity.
Qed.

End Deletes.

(** DELETE /api/employees/:id (with a pool, and an id without the byte 0x00)
    answers 200 when an employee has that id and 404 otherwise; afterwards
    exactly the employees with other ids remain, in order, exactly the
    attendance rows that do not reference the id remain, and the
    departments are untouched. *)
Theorem delete_employee_effect (en : env) (id : string) (s : db) :
  pool en = true -> has_nul id = false ->
  status (fst (serve en (DeleteEmployee id) s))
  = (if existsb (fun e => String.eqb (e_id e) id) (employees s) then 200 else 404)%Z
  /\ employees (snd (serve en (DeleteEmployee id) s))
     = filter (fun e => negb (String.eqb (e_id e) id)) (employees s)
  /\ attendances (snd (serve en (DeleteEmployee id) s))
     = filter (fun a => negb (sql_eq (a_employee_id a) (Some id))) (attendances s)
  /\ departments (snd (serve en (DeleteEmployee id) s)) = departments s.
Proof. intros Hp Hn. exact (delete_employee_run en id s Hp Hn). Qed.

Lemma delete_employee_effect_witness :
  status (fst (serve ex_env (DeleteEmployee "emp-1") ex_store)) = 200%Z
  /\ attendances (snd (serve ex_env (DeleteEmployee "emp-1") ex_store)) = [].
Proof.
  destruct (delete_employee_effect ex_env "emp-1" ex_store eq_refl eq_refl) as (H1 & _ & H3 & _).
  rewrite H1, H3. vm_compute. split; reflexivity.
Defined.

(** In a reachable store, with a pool, deleting an employee id that holds
    no byte 0x00 and that no employee has answers 404 and changes no table:
    no attendance row can reference a missing employee, so the explicit
    attendance delete removes nothing. *)
Theorem delete_unknown_employee_keeps_tables (en : env) (id : string) (s : db) :
  reachable s -> pool en = true -> has_nul id = false ->
  (forall e, In e (employees s) -> e_id e <> id) ->
  status (fst (serve en (DeleteEmployee id) s)) = 404%Z
  /\ tables (snd (serve en (DeleteEmployee id) s)) = tables s.
Proof.
  intros Hr Hp Hn Hno.
  destruct (delete_employee_run en id s Hp Hn) as (H1 & H2 & H3 & H4).
  destruct (reachable_att_inv s Hr) as [_ _ Hfk].
  replace (existsb (fun e => String.eqb (e_id e) id) (employees s)) with false in H1.
  2: { symmetry. apply not_true_iff_false. intros Hex.
       apply existsb_exists in Hex as [x [Hx Hxe]]. apply String.eqb_eq in Hxe.
       exact (Hno x Hx Hxe). }
  split; [exact H1|]. unfold tables. rewrite H2, H3, H4.
  rewrite (filter_all _ (employees s)).
  2: { intros x Hx. apply negb_true_iff, String.eqb_neq. apply Hno. exact Hx. }
  rewrite (filter_all _ (attendances s)); [reflexivity|].
  intros a Ha. apply negb_true_iff.
  destruct (sql_eq (a_employee_id a) (Some id)) eqn:E; [|reflexivity].
  apply sql_eq_some in E. destruct (Hfk a id Ha E) as [x [Hx Hxe]].
  exfalso. exact (Hno x Hx Hxe).
Qed.

Lemma delete_unknown_employee_keeps_tables_witness :
  status (fst (serve ex_env (DeleteEmployee "emp-9") ex_store)) = 404%Z
  /\ tables (snd (serve ex_env (DeleteEmployee "emp-9") ex_store)) = tables ex_store.
Proof.
  apply delete_unknown_employee_keeps_tables.
  - exact ex_store_reachable.
  - reflexivity.
  - reflexivity.
  - vm_compute. intros x [Hx|[]]. subst x. discriminate.
Defined.

(** DELETE /api/departments/:id (with a pool, and an id without the byte
    0x00) answers 200 when a department has that id and 404 otherwise;
    afterwards exactly the departments with other ids remain, and the
    employees and attendance tables are untouched. *)
Theorem delete_department_effect (en : env) (id : string) (s : db) :
  pool en = true -> has_nul id = false ->
  status (fst (serve en (DeleteDepartment id) s))
  = (if existsb (fun d => String.eqb (d_id d) id) (departments s) then 200 else 404)%Z
  /\ departments (snd (serve en (DeleteDepartment id) s))
     = filter (fun d => negb (String.eqb (d_id d) id)) (departments s)
  /\ employees (snd (serve en (DeleteDepartment id) s)) = employees s
  /\ attendances (snd (serve en (DeleteDepartment id) s)) = attendances s.
Proof. intros Hp Hn. exact (delete_department_run en id s Hp Hn). Qed.

Lemma delete_department_effect_witness :
  status (fst (serve ex_env (DeleteDepartment "dept-1")
                 (snd (serve ex_env (PostDepartments [("name", JStr "Sales")]) init_db)))) = 200%Z
  /\ departments (snd (serve ex_env (DeleteDepartment "dept-1")
                        (snd (serve ex_env (PostDepartments [("name", JStr "Sales")]) init_db)))) = [].
Proof.
  destruct (delete_department_effect ex_env "dept-1"
              (snd (serve ex_env (PostDepartments [("name", JStr "Sales")]) init_db)) eq_refl eq_refl)
    as (H1 & H2 & _ & _).
  rewrite H1, H2. vm_compute. split; reflexivity.
Defined.

(** DELETE /api/attendance/:employeeId/:date (with a pool, and parameters
    without the byte 0x00) answers 200 when a row has that employee id and
    date and 404 otherwise; afterwards exactly the other attendance rows
    remain, and the employees and departments are untouched. *)
Theorem delete_attendance_effect (en : env) (e d : string) (s : db) :
  pool en = true -> has_nul e = false -> has_nul d = false ->
  status (fst (serve en (DeleteAttendance e d) s))
  = (if existsb (att_match (Some e) (Some d)) (attendances s) then 200 else 404)%Z
  /\ attendances (snd (serve en (DeleteAttendance e d) s))
     = filter (fun a => negb (att_match (Some e) (Some d) a)) (attendances s)
  /\ employees (snd (serve en (DeleteAttendance e d) s)) = employees s
  /\ departments (snd (serve en (DeleteAttendance e d) s)) = departments s.
Proof. intros Hp He Hd. exact (delete_attendance_run en e d s Hp He Hd). Qed.

Lemma delete_attendance_effect_witness :
  status (fst (serve ex_env (DeleteAttendance "emp-1" "2024-01-01") ex_store)) = 200%Z
  /\ attendances (snd (serve ex_env (DeleteAttendance "emp-1" "2024-01-01") ex_store)) = [].
Proof.
  destruct (delete_attendance_effect ex_env "emp-1" "2024-01-01" ex_store eq_refl eq_refl eq_refl)
    as (H1 & H2 & _ & _).
  rewrite H1, H2. vm_compute. split; reflexivity.
Defined.

(** *** Employee and department ids stay distinct *)

Lemma keys_inv_same (s s' : db) :
  employees s' = employees s -> departments s' = departments s -> keys_inv s -> keys_inv s'.
Proof. intros He Hd. unfold keys_inv. rewrite He, Hd. exact (fun H => H). Qed.

Lemma distinct_keys_filter {X} (key : X -> string) (keep : X -> bool) (xs : list X) :
  NoDup (map key xs) -> NoDup (map key (filter keep xs)).
Proof.
  induction xs as [|x xs IH]; simpl; intros Hd; [constructor|].
  apply NoDup_cons_iff in Hd as [Hx Hxs].
  destruct (keep x); simpl; [|exact (IH Hxs)].
  apply NoDup_cons; [|exact (IH Hxs)].
  intros Hin. apply Hx. apply in_map_iff in Hin as (y & Hy & Hin).
  apply filter_In in Hin as [Hin _]. rewrite <- Hy. apply in_map. exact Hin.
Qed.

Lemma distinct_keys_snoc {X} (key : X -> string) (xs : list X) (x : X) :
  NoDup (map key xs) -> existsb (fun y => String.eqb (key y) (key x)) xs = false ->
  NoDup (map key (xs ++ [x])).
Proof.
  intros Hd Hex. rewrite map_app. apply NoDup_snoc; [exact Hd|].
  intros Hin. apply in_map_iff in Hin as (y & Hy & Hin).
  apply not_true_iff_false in Hex. apply Hex. apply existsb_exists.
  exists y. split; [exact Hin|]. apply String.eqb_eq. exact Hy.
Qed.

Lemma kpres_bind {A B} (m : M A) (k : A -> M B) :
  kpres m -> (forall a, kpres (k a)) -> kpres (bind m k).
Proof.
  intros Hm Hk s Hs. unfold bind. specialize (Hm s Hs).
  destruct (m s) as [[a|e] s'] eqn:E; simpl in *; [apply Hk|]; exact Hm.
Qed.

Lemma kpres_ret {A} (a : A) : kpres (ret a).
Proof. intros s Hs; exact Hs. Qed.

Lemma kpres_raise {A} (e : exn) : kpres (@raise A e).
Proof. intros s Hs; exact Hs. Qed.

Lemma kpres_same {A} (m : M A) : (forall s, snd (m s) = s) -> kpres m.
Proof. intros H s Hs. rewrite H. exact Hs. Qed.

Lemma kpres_issue q ps : kpres (issue q ps).
Proof.
  intros s Hs. rewrite issue_state. apply (keys_inv_same s); [reflexivity|reflexivity|exact Hs].
Qed.

Lemma kpres_get_bind {B} (k : db -> M B) :
  (forall s, keys_inv s -> keys_inv (snd (k s s))) -> kpres (bind get k).
Proof. intros H s Hs. exact (H s Hs). Qed.

Lemma kpres_get_any {B} (k : db -> M B) : (forall s, kpres (k s)) -> kpres (bind get k).
Proof. intros H s Hs. exact (H s s Hs). Qed.

Lemma kpres_modify_att (l : list attendance) : kpres (modify (set_attendances l)).
Proof. intros s Hs. exact Hs. Qed.

Lemma kpres_read {A} (f : db -> A) : kpres (bind get (fun s => ret (f s))).
Proof. apply kpres_get_bind. intros s Hs. exact Hs. Qed.

Ltac kpres_steps :=
  repeat first
    [ apply kpres_ret | apply kpres_raise | apply kpres_issue | apply kpres_modify_att
    | apply kpres_read
    | apply kpres_bind; [apply kpres_same; intros; apply coerce_state|intros ?]
    | apply kpres_bind; [apply kpres_same; intros; apply not_null_state|intros ?]
    | apply kpres_bind; [apply kpres_issue|intros ?] ].

Lemma kpres_sql_insert_employee id name email phone address department outlet :
  kpres (sql_insert_employee id name email phone address department outlet).
Proof.
  unfold sql_insert_employee. kpres_steps.
  apply kpres_get_bind. intros s [H1 H2].
  destruct (existsb (fun e => String.eqb (e_id e) a7) (employees s)) eqn:Ex; [split; assumption|].
  split; simpl; [|exact H2]. apply distinct_keys_snoc; [exact H1|exact Ex].
Qed.

Lemma kpres_sql_update_employee q sets id : kpres (sql_update_employee q sets id).
Proof.
  unfold sql_update_employee. kpres_steps.
  apply kpres_bind; [apply kpres_same; intros; apply coerce_sets_state|intros sets'].
  apply kpres_get_bind. intros s [H1 H2]. unfold bind.
  destruct (update_rows sets' id (employees s) s) as [r s'] eqn:E.
  apply update_rows_spec in E as [-> Hl]. destruct r as [l|ex]; [|split; assumption].
  split; simpl; [|exact H2]. rewrite (Hl l eq_refl). exact H1.
Qed.

Lemma kpres_sql_delete_employee id : kpres (sql_delete_employee id).
Proof.
  unfold sql_delete_employee. kpres_steps.
  apply kpres_get_bind. intros s [H1 H2]. split; simpl; [|exact H2].
  apply distinct_keys_filter. exact H1.
Qed.

Lemma kpres_sql_insert_department id name description outlet :
  kpres (sql_insert_department id name description outlet).
Proof.
  unfold sql_insert_department. kpres_steps.
  apply kpres_get_bind. intros s [H1 H2].
  destruct (existsb (fun d => String.eqb (d_id d) a4) (departments s)) eqn:Ex; [split; assumption|].
  split; simpl; [exact H1|]. apply distinct_keys_snoc; [exact H2|exact Ex].
Qed.

Lemma kpres_sql_delete_department id : kpres (sql_delete_department id).
Proof.
  unfold sql_delete_department. kpres_steps.
  apply kpres_get_bind. intros s [H1 H2]. split; simpl; [exact H1|].
  apply distinct_keys_filter. exact H2.
Qed.

Lemma kpres_attendance_statements :
  (forall id, kpres (sql_delete_attendance_of id))
  /\ (forall st e d, kpres (sql_update_status st e d))
  /\ (forall id e d st o, kpres (sql_insert_attendance id e d st o))
  /\ (forall e d, kpres (sql_delete_attendance e d)).
Proof.
  refine (conj _ (conj _ (conj _ _)));
    repeat match goal with |- forall _ : _, _ => intro end;
    unfold sql_delete_attendance_of, sql_update_status, sql_insert_attendance,
      sql_delete_attendance; kpres_steps;
    apply kpres_get_any; intros s;
    repeat match goal with
           | |- kpres (if ?c then _ else _) => destruct c
           | |- kpres (match ?c with Some _ => _ | None => _ end) => destruct c
           end; kpres_steps.
Qed.

Lemma kpres_handler (en : env) (r : request) : kpres (handler en r).
Proof.
  destruct kpres_attendance_statements as (Ha1 & Ha2 & Ha3 & Ha4).
  destruct r; unfold handler, get_employees, post_employees, patch_employee, delete_employee,
    get_departments, post_departments, delete_department, get_attendance, post_attendance,
    delete_attendance;
  (destruct (pool en); simpl negb; cbv iota; [|apply kpres_ret]).
  - apply kpres_bind; [apply kpres_bind; [apply kpres_issue|intros _; apply kpres_read]|].
    intros; apply kpres_ret.
  - apply kpres_bind; [apply kpres_sql_insert_employee|intros; apply kpres_ret].
  - destruct (build_update patch_columns b 1) as [[fs vs] k].
    destruct (Nat.eqb (List.length fs) 0); [apply kpres_ret|].
    apply kpres_bind; [apply kpres_sql_update_employee|intros [|? ?]; apply kpres_ret].
  - apply kpres_bind; [apply Ha1|intros _].
    apply kpres_bind; [apply kpres_sql_delete_employee|intros [|? ?]; apply kpres_ret].
  - apply kpres_bind; [apply kpres_bind; [apply kpres_issue|intros _; apply kpres_read]|].
    intros; apply kpres_ret.
  - apply kpres_bind; [apply kpres_sql_insert_department|intros; apply kpres_ret].
  - apply kpres_bind; [apply kpres_sql_delete_department|intros [|? ?]; apply kpres_ret].
  - apply kpres_bind; [apply kpres_bind; [apply kpres_issue|intros _; apply kpres_read]|].
    intros; apply kpres_ret.
  - apply kpres_bind; [apply kpres_bind; [apply kpres_issue|intros _; apply kpres_read]|intros outlets].
    apply kpres_bind; [apply kpres_bind; [apply kpres_issue|intros _; apply kpres_read]|intros ex].
    apply kpres_bind; [|intros [|? ?]; [apply kpres_raise|apply kpres_ret]].
    destruct (Nat.ltb 0 (List.length ex)); [apply Ha2|apply Ha3].
  - apply kpres_bind; [apply Ha4|intros [|? ?]; apply kpres_ret].
Qed.

Lemma reachable_keys_inv (s : db) : reachable s -> keys_inv s.
Proof.
  induction 1 as [|en r s _ IH].
  - split; constructor.
  - unfold serve. rewrite snd_run. apply kpres_handler. exact IH.
Qed.

Lemma filter_unique_key {X} (key : X -> string) (xs : list X) (x : X) :
  NoDup (map key xs) -> In x xs -> filter (fun y => String.eqb (key y) (key x)) xs = [x].
Proof.
  induction xs as [|y xs IH]; simpl; intros Hd Hin; [destruct Hin|].
  apply NoDup_cons_iff in Hd as [Hy Hxs].
  destruct Hin as [<-|Hin].
  - rewrite String.eqb_refl. f_equal.
    clear IH. induction xs as [|z xs IHz]; simpl; [reflexivity|].
    destruct (String.eqb_spec (key z) (key y)) as [Heq|].
    + exfalso. apply Hy. rewrite <- Heq. left. reflexivity.
    + apply IHz; [intros Hin; apply Hy; right; exact Hin|].
      apply NoDup_cons_iff in Hxs as [_ Hxs]. exact Hxs.
  - destruct (String.eqb_spec (key y) (key x)) as [Heq|]; [|exact (IH Hxs Hin)].
    exfalso. apply Hy. rewrite Heq. apply in_map. exact Hin.
Qed.

(** In every reachable store the ids of the employees, of the departments and
    of the attendance rows are pairwise distinct within their table. *)
Theorem reachable_ids_distinct (s : db) :
  reachable s ->
  NoDup (map e_id (employees s)) /\ NoDup (map d_id (departments s))
  /\ NoDup (map a_id (attendances s)).
Proof.
  intros Hr. destruct (reachable_keys_inv s Hr) as [H1 H2].
  destruct (reachable_att_inv s Hr) as [H3 _ _].
  split; [exact H1|split; [exact H2|exact H3]].
Qed.

Lemma reachable_ids_distinct_witness :
  reachable ex_store
  /\ NoDup (map e_id (employees ex_store)) /\ NoDup (map d_id (departments ex_store))
  /\ NoDup (map a_id (attendances ex_store)).
Proof. split; [exact ex_store_reachable|]. exact (reachable_ids_distinct ex_store ex_store_reachable). Defined.

(** In every reachable store, an attendance row whose [employee_id] is not
    NULL refers to exactly one employee row. *)
Theorem reachable_attendance_refers_to_one_employee (s : db) (a : attendance) (e : string) :
  reachable s -> In a (attendances s) -> a_employee_id a = Some e ->
  exists x, filter (fun y => String.eqb (e_id y) e) (employees s) = [x].
Proof.
  intros Hr Ha He. destruct (reachable_att_inv s Hr) as [_ _ Hfk].
  destruct (Hfk a e Ha He) as (x & Hx & <-).
  exists x. apply filter_unique_key; [|exact Hx].
  exact (proj1 (reachable_keys_inv s Hr)).
Qed.

Lemma reachable_attendance_refers_to_one_employee_witness :
  reachable ex_store
  /\ In (mkAttendance "emp-1-2024-01-01" (Some "emp-1") "2024-01-01" "present" (Some "North"))
        (attendances ex_store)
  /\ exists x, filter (fun y => String.eqb (e_id y) "emp-1") (employees ex_store) = [x].
Proof.
  split; [exact ex_store_reachable|].
  assert (Hin : In (mkAttendance "emp-1-2024-01-01" (Some "emp-1") "2024-01-01" "present" (Some "North"))
                   (attendances ex_store)) by (vm_compute; left; reflexivity).
  split; [exact Hin|].
  exact (reachable_attendance_refers_to_one_employee ex_store _ "emp-1" ex_store_reachable Hin eq_refl).
Defined.

Lemma sql_insert_employee_taken (i : string) (name email phone address department outlet : cell)
  (s : db) :
  String.length i <= 255 -> existsb (fun e => String.eqb (e_id e) i) (employees s) = true ->
  fails_keeping (sql_insert_employee (Some i) name email phone address department outlet) s.
Proof.
  intros Hlen Hex. unfold sql_insert_employee.
  apply bind_keep; [rewrite issue_state; reflexivity|]. intros u s1 E. apply issue_inl in E. subst s1.
  apply bind_keep; [rewrite coerce_state; reflexivity|]. intros c s1 E.
  apply coerce_varchar in E as [-> ->]. simpl option_map. rewrite (prefix_short 255 i Hlen).
  do 3 (apply bind_keep; [rewrite coerce_state; reflexivity|]; intros ? ? E;
        apply coerce_varchar in E as [-> _]).
  apply bind_keep; [rewrite coerce_state; reflexivity|]. intros ? ? E.
  apply coerce_text_inl in E as [_ ->].
  do 2 (apply bind_keep; [rewrite coerce_state; reflexivity|]; intros ? ? E;
        apply coerce_varchar in E as [-> _]).
  apply bind_keep; [reflexivity|]. intros ? ? E. injection E as <- <-.
  apply bind_keep; [rewrite not_null_state; reflexivity|]. intros ? ? E.
  apply not_null_inl in E as [_ ->].
  apply bind_keep; [reflexivity|]. intros ? ? E. injection E as <- <-.
  simpl employees. rewrite Hex. exists (UniqueViolation "employees_pkey"). split; reflexivity.
Qed.

Lemma sql_insert_department_taken (i : string) (name description outlet : cell) (s : db) :
  String.length i <= 255 -> existsb (fun d => String.eqb (d_id d) i) (departments s) = true ->
  fails_keeping (sql_insert_department (Some i) name description outlet) s.
Proof.
  intros Hlen Hex. unfold sql_insert_department.
  apply bind_keep; [rewrite issue_state; reflexivity|]. intros u s1 E. apply issue_inl in E. subst s1.
  apply bind_keep; [rewrite coerce_state; reflexivity|]. intros c s1 E.
  apply coerce_varchar in E as [-> ->]. simpl option_map. rewrite (prefix_short 255 i Hlen).
  apply bind_keep; [rewrite coerce_state; reflexivity|]. intros ? ? E.
  apply coerce_varchar in E as [-> _].
  apply bind_keep; [rewrite coerce_state; reflexivity|]. intros ? ? E.
  apply coerce_text_inl in E as [_ ->].
  apply bind_keep; [rewrite coerce_state; reflexivity|]. intros ? ? E.
  apply coerce_varchar in E as [-> _].
  apply bind_keep; [reflexivity|]. intros ? ? E. injection E as <- <-.
  apply bind_keep; [rewrite not_null_state; reflexivity|]. intros ? ? E.
  apply not_null_inl in E as [_ ->].
  apply bind_keep; [reflexivity|]. intros ? ? E. injection E as <- <-.
  simpl departments. rewrite Hex. exists (UniqueViolation "departments_pkey"). split; reflexivity.
Qed.

(** Creating an employee while a row already has the id [emp-<now>]
    (two creations within the same millisecond), or a department while a
    row has the id [dept-<now>], is answered with 500 and leaves the three
    tables unchanged. *)
Theorem create_with_taken_id_fails (en : env) (b : obj) (s : db) :
  pool en = true ->
  (existsb (fun e => String.eqb (e_id e) ("emp-" ++ string_of_Z (now en))) (employees s) = true ->
   String.length ("emp-" ++ string_of_Z (now en)) <= 255 ->
   status (fst (serve en (PostEmployees b) s)) = 500%Z
   /\ tables (snd (serve en (PostEmployees b) s)) = tables s)
  /\ (existsb (fun d => String.eqb (d_id d) ("dept-" ++ string_of_Z (now en))) (departments s) = true ->
      String.length ("dept-" ++ string_of_Z (now en)) <= 255 ->
      status (fst (serve en (PostDepartments b) s)) = 500%Z
      /\ tables (snd (serve en (PostDepartments b) s)) = tables s).
Proof.
  intros Hp. split; intros Hex Hlen.
  - unfold serve, handler, post_employees. rewrite Hp. simpl negb. cbv iota.
    match goal with
    | |- context [run (bind ?m ?k) s] =>
        destruct (fails_keeping_run m k s (sql_insert_employee_taken _ _ _ _ _ _ _ s Hlen Hex))
          as (ex & Hr & Ht)
    end.
    rewrite Hr. split; [reflexivity|exact Ht].
  - unfold serve, handler, post_departments. rewrite Hp. simpl negb. cbv iota.
    match goal with
    | |- context [run (bind ?m ?k) s] =>
        destruct (fails_keeping_run m k s (sql_insert_department_taken _ _ _ _ s Hlen Hex))
          as (ex & Hr & Ht)
    end.
    rewrite Hr. split; [reflexivity|exact Ht].
Qed.

Lemma create_with_taken_id_fails_witness :
  status (fst (serve ex_env (PostEmployees [("name", JStr "Bo")]) ex_store)) = 500%Z
  /\ tables (snd (serve ex_env (PostEmployees [("name", JStr "Bo")]) ex_store)) = tables ex_store.
Proof.
  apply (proj1 (create_with_taken_id_fails ex_env [("name", JStr "Bo")] ex_store eq_refl));
    vm_compute; [reflexivity|lia].
Defined.

(** Recording attendance without a [status] (absent or [null]) is answered
    with 500 and leaves the three tables unchanged: a new row hits the NOT
    NULL constraint of [status], and so does the update of an existing row,
    whatever the employee and the date. *)
Theorem upsert_without_status_fails (en : env) (b : obj) (s : db) :
  pool en = true -> to_param (field b "status") = None ->
  status (fst (serve en (PostAttendance b) s)) = 500%Z
  /\ tables (snd (serve en (PostAttendance b) s)) = tables s.
Proof.
  intros Hp Hst.
  unfold serve, run, handler, post_attendance. rewrite Hp. simpl negb. cbv iota.
  rewrite Hst.
  remember (to_param (field b "employeeId")) as pe.
  remember (to_param (field b "date")) as pd.
  unfold_m. simpl.
  repeat (match goal with
          | |- context [if ?c then _ else _] => destruct c eqn:?
          | |- context [match ?x with Some _ => _ | None => _ end] => destruct x eqn:?
          | |- context [match ?x with [] => _ | _ :: _ => _ end] => destruct x eqn:?
          end; simpl; try congruence).
  all: split; reflexivity.
Qed.

Lemma upsert_without_status_fails_witness :
  status (fst (serve ex_env (PostAttendance [("employeeId", JStr "emp-1"); ("date", JStr "2024-01-01")])
                 ex_store)) = 500%Z
  /\ tables (snd (serve ex_env (PostAttendance [("employeeId", JStr "emp-1"); ("date", JStr "2024-01-01")])
                    ex_store)) = tables ex_store.
Proof.
  apply (upsert_without_status_fails ex_env [("employeeId", JStr "emp-1"); ("date", JStr "2024-01-01")]
           ex_store); reflexivity.
Defined.

(** When recording attendance creates a row (answer 201 with the row [r]),
    [r] is appended to the attendance table and the other tables are
    unchanged; its id, employee id, date and status are the request's values
    cut to the column widths, and its outlet is a copy of the outlet the
    employee had at that moment. *)
Theorem upsert_insert_snapshot (en : env) (b : obj) (s s' : db) (r : attendance) :
  serve en (PostAttendance b) s = (mkResponse 201 (BAttendance r), s') ->
  attendances s' = (attendances s ++ [r])%list
  /\ employees s' = employees s /\ departments s' = departments s
  /\ a_id r = substring 0 255 (attendance_id (field b "employeeId") (field b "date"))
  /\ a_employee_id r = option_map (substring 0 255) (to_param (field b "employeeId"))
  /\ Some (a_date r) = option_map (substring 0 255) (to_param (field b "date"))
  /\ Some (a_status r) = option_map (substring 0 50) (to_param (field b "status"))
  /\ a_outlet r
     = option_map (substring 0 255)
         (match map e_outlet (filter (fun e => sql_eq (Some (e_id e)) (to_param (field b "employeeId")))
                                   (employees s)) with
          | o :: _ => o
          | [] => None
          end).
Proof.
  intros H. unfold serve, run, handler, post_attendance in H.
  destruct (pool en) eqn:Hp; [|discriminate H]. simpl negb in H. cbv iota in H.
  match type of H with
  | match ?m s with _ => _ end = _ => destruct (m s) as [[resp|ex] s1] eqn:E
  end; [|discriminate H].
  injection H as -> ->.
  apply bind_inl in E as (outs & s2 & E & Hk).
  apply sql_select_outlet_inl in E as [-> Ht2].
  apply bind_inl in Hk as (exs & s3 & E & Hk).
  apply sql_select_attendance_of_inl in E as [-> Ht3].
  apply bind_inl in Hk as (rows & s4 & E & Hk).
  destruct (Nat.ltb 0 (List.length (filter _ (attendances s2)))) eqn:Hx.
  - destruct rows as [|r0 rows]; [discriminate Hk|]. discriminate Hk.
  - apply sql_insert_attendance_inl in E
      as (r0 & -> & Ha & He & Hd & Hid & Heid & Hdate & Hst & Hou).
    unfold ret in Hk. injection Hk as Hr <-. subst r.
    unfold tables in Ht2, Ht3. injection Ht2 as He2 Hd2 Ha2. injection Ht3 as He3 Hd3 Ha3.
    rewrite Ha, Ha3, Ha2, He, He3, He2, Hd, Hd3, Hd2.
    split; [reflexivity|]. split; [reflexivity|]. split; [reflexivity|].
    split; [simpl in Hid; injection Hid as Hid; exact Hid|].
    split; [exact Heid|]. split; [exact Hdate|]. split; [exact Hst|exact Hou].
Qed.

Lemma upsert_insert_snapshot_witness :
  serve ex_env (ex_upsert "present")
    (snd (serve ex_env (PostEmployees [("name", JStr "Ann"); ("outlet", JStr "North")]) init_db))
  = (mkResponse 201 (BAttendance (mkAttendance "emp-1-2024-01-01" (Some "emp-1") "2024-01-01"
                                    "present" (Some "North"))), ex_store)
  /\ a_outlet (mkAttendance "emp-1-2024-01-01" (Some "emp-1") "2024-01-01" "present" (Some "North"))
     = option_map (substring 0 255)
         (match map e_outlet (filter (fun e => sql_eq (Some (e_id e)) (Some "emp-1"))
                   (employees (snd (serve ex_env (PostEmployees [("name", JStr "Ann"); ("outlet", JStr "North")])
                                      init_db)))) with
          | o :: _ => o
          | [] => None
          end).
Proof.
  assert (H : serve ex_env (ex_upsert "present")
    (snd (serve ex_env (PostEmployees [("name", JStr "Ann"); ("outlet", JStr "North")]) init_db))
    = (mkResponse 201 (BAttendance (mkAttendance "emp-1-2024-01-01" (Some "emp-1") "2024-01-01"
                                      "present" (Some "North"))), ex_store)) by (vm_compute; reflexivity).
  split; [exact H|].
  exact (proj2 (proj2 (proj2 (proj2 (proj2 (proj2 (proj2 (upsert_insert_snapshot _ _ _ _ _ H)))))))).
Defined.

(** *** Which columns a PATCH writes *)

Ltac split_eqb :=
  repeat match goal with
         | |- context [String.eqb ?a ?b] => destruct (String.eqb_spec a b)
         end.

Lemma set_employee_column_effect (e e' : employee) (c : string) (v : cell) :
  set_employee_column e c v = Some e' ->
  e_id e' = e_id e
  /\ (In c patch_columns -> employee_column e' c = v)
  /\ (forall c', c' <> c -> employee_column e' c' = employee_column e c').
Proof.
  destruct e as [i n em ph ad de ou]. unfold set_employee_column.
  intros H.
  destruct (String.eqb_spec c "name") as [->|Hn].
  { destruct v as [n'|]; [|discriminate H]. injection H as <-.
    split; [reflexivity|]. split; [reflexivity|].
    intros c' Hc'. unfold employee_column. simpl. split_eqb; congruence. }
  destruct (String.eqb_spec c "email") as [->|He].
  { injection H as <-. split; [reflexivity|]. split; [reflexivity|].
    intros c' Hc'. unfold employee_column. simpl. split_eqb; congruence. }
  destruct (String.eqb_spec c "phone") as [->|Hph].
  { injection H as <-. split; [reflexivity|]. split; [reflexivity|].
    intros c' Hc'. unfold employee_column. simpl. split_eqb; congruence. }
  destruct (String.eqb_spec c "address") as [->|Ha].
  { injection H as <-. split; [reflexivity|]. split; [reflexivity|].
    intros c' Hc'. unfold employee_column. simpl. split_eqb; congruence. }
  destruct (String.eqb_spec c "department") as [->|Hd].
  { injection H as <-. split; [reflexivity|]. split; [reflexivity|].
    intros c' Hc'. unfold employee_column. simpl. split_eqb; congruence. }
  destruct (String.eqb_spec c "outlet") as [->|Ho].
  { injection H as <-. split; [reflexivity|]. split; [reflexivity|].
    intros c' Hc'. unfold employee_column. simpl. split_eqb; congruence. }
  injection H as <-. split; [reflexivity|]. split; [|reflexivity].
  unfold patch_columns. simpl. intuition congruence.
Qed.

Lemma set_employee_columns_effect (sets : list (string * cell)) (e e' : employee) :
  (forall c v, In (c, v) sets -> In c patch_columns) ->
  set_employee_columns e sets = Some e' ->
  e_id e' = e_id e
  /\ (forall c, In c (map fst sets) -> exists v, In (c, v) sets /\ employee_column e' c = v)
  /\ (forall c, ~ In c (map fst sets) -> employee_column e' c = employee_column e c).
Proof.
  revert e. induction sets as [|[c0 v0] sets IH]; intros e Hp H.
  - simpl in H. injection H as <-. split; [reflexivity|]. split; [intros c []|reflexivity].
  - simpl in H. destruct (set_employee_column e c0 v0) as [e1|] eqn:E1; [|discriminate H].
    apply set_employee_column_effect in E1 as (Hid1 & Hset1 & Hkeep1).
    destruct (IH e1 (fun c v Hin => Hp c v (or_intror Hin)) H) as (Hid & Hin & Hout).
    split; [congruence|]. split.
    + intros c Hc. destruct (in_dec String.string_dec c (map fst sets)) as [Hr|Hr].
      * destruct (Hin c Hr) as (v & Hv & Hcol). exists v. split; [right; exact Hv|exact Hcol].
      * simpl in Hc. destruct Hc as [<-|Hc]; [|contradiction].
        exists v0. split; [left; reflexivity|].
        rewrite (Hout c0 Hr). apply Hset1. apply (Hp c0 v0). left. reflexivity.
    + intros c Hc. simpl in Hc. rewrite (Hout c (fun H' => Hc (or_intror H'))).
      apply Hkeep1. intros ->. apply Hc. left. reflexivity.
Qed.

Lemma coerce_sets_inl (sets sets' : list (string * cell)) (s s' : db) :
  coerce_sets sets s = (inl sets', s') ->
  map fst sets' = map fst sets
  /\ forall c v', In (c, v') sets' ->
       exists v, In (c, v) sets
         /\ v' = match employee_coltype c with
                 | VarChar n => option_map (substring 0 n) v
                 | Text => v
                 end.
Proof.
  revert sets' s s'. induction sets as [|[c v] sets IH]; intros sets' s s' H; simpl in H.
  - unfold ret in H. injection H as <- _. split; [reflexivity|intros c v' []].
  - apply bind_inl in H as (v1 & s1 & E1 & H).
    apply bind_inl in H as (rest & s2 & E2 & H). unfold ret in H. injection H as <- _.
    destruct (IH rest s1 s2 E2) as [Hf Hv].
    assert (Hv1 : v1 = match employee_coltype c with
                       | VarChar n => option_map (substring 0 n) v
                       | Text => v
                       end).
    { destruct (employee_coltype c) as [n|].
      - apply coerce_varchar in E1 as [_ ->]. reflexivity.
      - apply coerce_text_inl in E1 as [-> _]. reflexivity. }
    split; [simpl; rewrite Hf; reflexivity|].
    intros c' v' [Heq|Hin].
    + injection Heq as <- <-. exists v. split; [left; reflexivity|exact Hv1].
    + destruct (Hv c' v' Hin) as (v2 & Hv2 & Heq). exists v2. split; [right; exact Hv2|exact Heq].
Qed.

Lemma update_rows_first (sets : list (string * cell)) (id : string) (l l' : list employee)
    (s s' : db) (r : employee) (rest : list employee) :
  update_rows sets (Some id) l s = (inl l', s') ->
  filter (fun e => String.eqb (e_id e) id) l' = r :: rest ->
  exists old, In old l /\ e_id old = id /\ set_employee_columns old sets = Some r.
Proof.
  revert l' s' rest. induction l as [|e l IH]; intros l' s' rest H Hf; simpl update_rows in H.
  - unfold ret in H. injection H as <- _. discriminate Hf.
  - apply bind_inl in H as (l1 & s1 & E & H). simpl sql_eq in H.
    destruct (String.eqb_spec (e_id e) id) as [Hid|Hid].
    + destruct (set_employee_columns e sets) as [e'|] eqn:Es; [|discriminate H].
      unfold ret in H. injection H as <- _.
      simpl in Hf. rewrite (set_employee_columns_id e sets e' Es), Hid, String.eqb_refl in Hf.
      injection Hf as -> _. exists e. split; [left; reflexivity|split; [exact Hid|exact Es]].
    + unfold ret in H. injection H as <- _. simpl in Hf.
      destruct (String.eqb_spec (e_id e) id) as [|_]; [contradiction|].
      destruct (IH l1 s1 rest E Hf) as (old & Hin & Hoid & Hold).
      exists old. split; [right; exact Hin|split; [exact Hoid|exact Hold]].
Qed.

Lemma build_update_values (cols : list string) (b : obj) (n : nat) :
  let '(fs, vs, k) := build_update cols b n in
  map fst vs = filter (fun c => negb (is_undefined (field b c))) cols
  /\ forall c v, In (c, v) vs -> v = field b c.
Proof.
  revert n. induction cols as [|c cols IH]; intros n; simpl; [split; [reflexivity|intros c v []]|].
  destruct (is_undefined (field b c)) eqn:Hu; simpl; [exact (IH n)|].
  specialize (IH (S n)). destruct (build_update cols b (S n)) as [[fs vs] k].
  destruct IH as [Hf Hv]. split; [simpl; rewrite Hf; reflexivity|].
  intros c' v [Heq|Hin]; [injection Heq as <- <-; reflexivity|exact (Hv c' v Hin)].
Qed.

(** When a PATCH answers 200 with the row [r], [r] is the update of a stored
    row [old] with the requested id: every column the body gives (name,
    email, phone, address, department, outlet) holds the body's value, cut
    to the column width, and every column the body omits keeps [old]'s
    value. *)
Theorem patch_writes_requested_columns (en : env) (id : string) (b : obj) (s : db) (r : employee) :
  fst (serve en (PatchEmployee id b) s) = mkResponse 200 (BEmployee r) ->
  exists old, In old (employees s) /\ e_id old = id /\ e_id r = id
    /\ forall c, In c patch_columns ->
         employee_column r c
         = if is_undefined (field b c) then employee_column old c
           else match employee_coltype c with
                | VarChar n => option_map (substring 0 n) (to_param (field b c))
                | Text => to_param (field b c)
                end.
Proof.
  unfold serve, run, handler, patch_employee.
  destruct (pool en); [|simpl; discriminate]. cbv beta iota delta [negb].
  pose proof (build_update_values patch_columns b 1) as Hbu.
  destruct (build_update patch_columns b 1) as [[fs vs] k]. destruct Hbu as [Hf Hv].
  destruct (Nat.eqb (List.length fs) 0); [simpl; discriminate|].
  unfold sql_update_employee. cbv [bind get modify ret].
  match goal with
  | |- context [issue ?q ?ps s] =>
      pose proof (issue_state q ps s) as Hi;
      destruct (issue q ps s) as [[[]|ex] s1]; simpl in Hi; subst s1
  end; [|simpl; discriminate].
  match goal with
  | |- context [coerce_sets ?x ?y] =>
      pose proof (coerce_sets_state x y) as Hc;
      destruct (coerce_sets x y) as [[sets'|ex] s2] eqn:Ec; simpl in Hc; subst s2
  end; [|simpl; discriminate].
  simpl.
  match goal with
  | |- context [update_rows ?a ?b ?c ?d] =>
      destruct (update_rows a b c d) as [[l|ex] s3] eqn:E
  end; [|simpl; discriminate].
  destruct (filter (fun e => (e_id e =? id)%string) l) as [|r0 rows] eqn:Ef; [simpl; discriminate|].
  simpl. intros H. injection H as <-.
  destruct (update_rows_first _ _ _ _ _ _ _ _ E Ef) as (old & Hin & Hoid & Hset).
  apply coerce_sets_inl in Ec as [Hfs Hcv].
  assert (Hmap : map fst sets' = filter (fun c => negb (is_undefined (field b c))) patch_columns).
  { rewrite Hfs, map_map. exact Hf. }
  assert (Hpc : forall c v, In (c, v) sets' -> In c patch_columns).
  { intros c v Hcv'. assert (Hc' : In c (map fst sets')) by (apply (in_map fst) in Hcv'; exact Hcv').
    rewrite Hmap in Hc'. apply filter_In in Hc' as [Hc' _]. exact Hc'. }
  destruct (set_employee_columns_effect sets' old r0 Hpc Hset) as (Hrid & Hgiven & Hkept).
  exists old. split; [exact Hin|]. split; [exact Hoid|]. split; [congruence|].
  intros c Hc. destruct (is_undefined (field b c)) eqn:Hu.
  - apply Hkept. rewrite Hmap. intros Hc'. apply filter_In in Hc' as [_ Hc'].
    rewrite Hu in Hc'. discriminate Hc'.
  - assert (Hc' : In c (map fst sets')) by (rewrite Hmap; apply filter_In; rewrite Hu; auto).
    destruct (Hgiven c Hc') as (v' & Hv' & ->).
    destruct (Hcv c v' Hv') as (v0 & Hv0 & ->).
    apply in_map_iff in Hv0 as ([c1 w] & Hcw & Hw). simpl in Hcw. injection Hcw as -> <-.
    rewrite <- (Hv c w Hw). reflexivity.
Qed.

Lemma patch_writes_requested_columns_witness :
  exists old, In old (employees ex_store) /\ e_id old = "emp-1"
    /\ e_id (mkEmployee "emp-1" "Ann" (Some "") None (Some "") (Some "") (Some "South")) = "emp-1"
    /\ forall c, In c patch_columns ->
         employee_column (mkEmployee "emp-1" "Ann" (Some "") None (Some "") (Some "") (Some "South")) c
         = if is_undefined (field [("outlet", JStr "South")] c) then employee_column old c
           else match employee_coltype c with
                | VarChar n => option_map (substring 0 n) (to_param (field [("outlet", JStr "South")] c))
                | Text => to_param (field [("outlet", JStr "South")] c)
                end.
Proof.
  apply (patch_writes_requested_columns ex_env "emp-1" [("outlet", JStr "South")] ex_store).
  vm_compute. reflexivity.
Defined.
